(** * Cerebrum: the HumanEval inference adapter, the LLM request/response
    schemas, the LLM layer and the tool listing, embedded in Rocq.

    Source files covered:
    - [benchmarks/humaneval/inference.py]  ([parse_result],
      [write_output_func], [process_one_func]);
    - [cerebrum/llm/apis.py]               ([LLMQuery], [LLMResponse],
      [llm_chat], [llm_call_tool], [llm_operate_file]);
    - [cerebrum/llm/layer.py]              ([LLMItem], [LLMLayer]);
    - [cerebrum/commands/list_tools.py]    ([list_tools]).

    A Python [str] that the code searches, cuts, joins, encodes or uses
    as a path is a list of Unicode code points ([pystr]).  Field values
    and labels of the schemas and of the console, which are only stored
    and compared, are [string].  Integers are [Z].  A raised exception is
    the left summand of a result; code that touches files or the console
    maps a world to an outcome and the world it leaves. *)

From Stdlib Require Import ZArith NArith Lia Ascii String List.
From stdpp Require Import base tactics option strings gmap pretty.

Local Open Scope Z_scope.

(** ** Text *)

(** A Python string: its code points, in order. *)
Definition pystr : Type := list N.

(** The string of a literal. *)
Definition str (s : string) : pystr :=
  map N_of_ascii (list_ascii_of_string s).

(** ** Exceptions and results *)

Inductive exn : Type :=
| KeyError (key : pystr)
| IndexError
| ValueError (msg : string)
| ValidationError (fields : list string)
| UnicodeEncodeError
| FileNotFoundError (path : pystr)
| IsADirectoryError (path : pystr)
| PermissionError (path : pystr)
| OSError (errno : Z) (path : pystr).

Definition result (A : Type) : Type := exn + A.

Definition ret {A} (a : A) : result A := inr a.
Definition raise {A} (e : exn) : result A := inl e.

Definition bind {A B} (m : result A) (k : A -> result B) : result B :=
  match m with
  | inl e => inl e
  | inr a => k a
  end.

Notation "'do' x <- m ; k" := (bind m (fun x => k))
  (at level 10, x name, m at level 99, k at level 200).

(** A loosely typed Python value, as it sits behind [Any]. *)
#[local] Unset Elimination Schemes.
Inductive py_any : Type :=
| PyNone
| PyBool (b : bool)
| PyInt (z : Z)
| PyStr (s : string)
| PyList (l : list py_any)
| PyDict (d : list (string * py_any)).
#[local] Set Elimination Schemes.

(** [Dict[str, Any]], in insertion order. *)
Definition py_dict : Type := list (string * py_any).

(** ** Python string primitives used by the sources *)

Module PyStr.

(** [sub in s]: [sub] occurs somewhere in [s]. *)
Definition occurs (sub s : pystr) : Prop :=
  exists pre post, s = pre ++ sub ++ post.

(** [s.startswith(sub)]. *)
Fixpoint startswith (s sub : pystr) : bool :=
  match sub with
  | [] => true
  | a :: sub' =>
      match s with
      | [] => false
      | b :: s' => (a =? b)%N && startswith s' sub'
      end
  end.

(** Scan of [str.find]: [i] is the index of the head of [s] in the
    original string. *)
Fixpoint find_at (sub s : pystr) (i : Z) : Z :=
  if startswith s sub then i
  else match s with
       | [] => -1
       | _ :: s' => find_at sub s' (i + 1)
       end.

(** [s.find(sub)]: lowest index of an occurrence, [-1] when none. *)
Definition find (s sub : pystr) : Z := find_at sub s 0.

(** Index normalisation of a slice bound against a length. *)
Definition clamp (len i : Z) : Z :=
  if i <? 0 then Z.max (i + len) 0 else Z.min i len.

(** [s[lo:hi]] with Python's treatment of negative and out-of-range
    bounds; empty when the bounds cross. *)
Definition slice (s : pystr) (lo hi : Z) : pystr :=
  let len := Z.of_nat (length s) in
  let lo' := clamp len lo in
  let hi' := clamp len hi in
  take (Z.to_nat (hi' - lo')) (drop (Z.to_nat lo') s).

(** [s.split(sep)] for a one-character separator: the pieces between
    separators, in order; one piece more than there are separators. *)
Fixpoint split (sep : N) (s : pystr) : list pystr :=
  match s with
  | [] => [[]]
  | c :: s' =>
      if (c =? sep)%N then [] :: split sep s'
      else match split sep s' with
           | piece :: rest => (c :: piece) :: rest
           | [] => [[c]]
           end
  end.

(** [l[-1]]. *)
Definition last_item {A} (l : list A) : result A :=
  match last l with
  | Some x => ret x
  | None => raise IndexError
  end.

(** [s.endswith(c)] for a single character. *)
Fixpoint endswith (c : N) (s : pystr) : bool :=
  match s with
  | [] => false
  | [a] => (a =? c)%N
  | _ :: s' => endswith c s'
  end.

(** [sep.join(pieces)]. *)
Fixpoint join (sep : pystr) (pieces : list pystr) : pystr :=
  match pieces with
  | [] => []
  | [p] => p
  | p :: rest => p ++ sep ++ join sep rest
  end.

(** [s.rstrip(c)] for a single character. *)
Fixpoint rstrip (c : N) (s : pystr) : pystr :=
  match s with
  | [] => []
  | a :: s' =>
      match rstrip c s' with
      | [] => if (a =? c)%N then [] else [a]
      | r => a :: r
      end
  end.

(** The lines of a text: maximal runs without a line feed, each closed by
    one; an unterminated last run counts as a line when it is not empty. *)
Fixpoint lines_go (cur : pystr -> pystr) (s : pystr) : list pystr :=
  match s with
  | [] => match cur [] with
          | [] => []
          | l => [l]
          end
  | c :: s' =>
      if (c =? 10)%N then cur [] :: lines_go (fun x => x) s'
      else lines_go (fun x => cur (c :: x)) s'
  end.

Definition lines (s : pystr) : list pystr := lines_go (fun x => x) s.

End PyStr.

(** ** [os.path] (POSIX flavour) *)

Module OsPath.

Definition sep : N := 47.

(** [os.path.join(a, b)]. *)
Definition join (a b : pystr) : pystr :=
  if PyStr.startswith b [sep] then b
  else if (length a =? 0)%nat || PyStr.endswith sep a then a ++ b
  else a ++ [sep] ++ b.

(** The cut of [os.path.split] at the last separator: what stands up to
    and with it, and what follows it. *)
Fixpoint cut (p : pystr) : pystr * pystr :=
  match p with
  | [] => ([], [])
  | c :: p' =>
      match cut p' with
      | ([], t) => if (c =? sep)%N then ([c], t) else ([], c :: t)
      | (h, t) => (c :: h, t)
      end
  end.

(** [os.path.dirname(p)]: the head of the cut, without its trailing
    separators unless it has nothing else. *)
Definition dirname (p : pystr) : pystr :=
  let head := (cut p).1 in
  if forallb (fun c => (c =? sep)%N) head then head else PyStr.rstrip sep head.

(** [os.path.basename(p)]. *)
Definition basename (p : pystr) : pystr := (cut p).2.

End OsPath.

(** ** [json.dumps] with its defaults, on what the harness writes *)

Module Json.

Definition DQUOTE : N := 34.
Definition BACKSLASH : N := 92.

(** The code point of the lower-case hexadecimal digit of a value below
    sixteen: ['0'..'9'], ['a'..'f']. *)
Definition hex_digit (d : N) : N :=
  (if d <? 10 then 48 + d else 87 + d)%N.

(** Four hexadecimal digits. *)
Definition hex4 (n : N) : pystr :=
  [hex_digit ((n / 4096) mod 16); hex_digit ((n / 256) mod 16);
   hex_digit ((n / 16) mod 16); hex_digit (n mod 16)]%N.

(** The escape [\uXXXX]. *)
Definition u_escape (n : N) : pystr := BACKSLASH :: 117%N :: hex4 n.

(** A character inside the printable ASCII range [' ' .. '~']. *)
Definition printable (c : N) : bool := ((32 <=? c) && (c <=? 126))%N.

(** The escape of one character under [ensure_ascii=True]: the short
    escapes, the character itself when it is printable ASCII, [\uXXXX]
    below U+10000 and the two escapes of its surrogate pair above. *)
Definition escape_char (c : N) : pystr :=
  (if c =? BACKSLASH then [BACKSLASH; BACKSLASH]
   else if c =? DQUOTE then [BACKSLASH; DQUOTE]
   else if c =? 8 then [BACKSLASH; 98]
   else if c =? 12 then [BACKSLASH; 102]
   else if c =? 10 then [BACKSLASH; 110]
   else if c =? 13 then [BACKSLASH; 114]
   else if c =? 9 then [BACKSLASH; 116]
   else if printable c then [c]
   else if c <? 65536 then u_escape c
   else
     let v := c - 65536 in
     u_escape (55296 + (v / 1024) mod 1024) ++ u_escape (56320 + v mod 1024))%N.

Fixpoint escape (s : pystr) : pystr :=
  match s with
  | [] => []
  | c :: s' => escape_char c ++ escape s'
  end.

(** A string literal: the escaped text between double quotes. *)
Definition dumps_str (s : pystr) : pystr :=
  DQUOTE :: escape s ++ [DQUOTE].

(** One [key: value] member, with the default [": "] separator. *)
Definition dumps_item (kv : pystr * pystr) : pystr :=
  dumps_str kv.1 ++ str ": " ++ dumps_str kv.2.

(** [json.dumps(d)] for a dict with string keys and values, members in
    insertion order joined by [", "]. *)
Definition dumps (d : list (pystr * pystr)) : pystr :=
  str "{" ++ PyStr.join (str ", ") (map dumps_item d) ++ str "}".

(** Every character of a string is printable ASCII. *)
Definition all_printable (s : pystr) : bool := forallb printable s.

(** A printable ASCII character or a line feed. *)
Definition printable_or_lf (c : N) : bool := printable c || (c =? 10)%N.

(** What follows the first member of an object: the other members, each
    after [", "], and the closing brace. *)
Fixpoint members_tail (d : list (pystr * pystr)) : pystr :=
  match d with
  | [] => str "}"
  | kv :: d' => str ", " ++ dumps_item kv ++ members_tail d'
  end.

(** *** The matching decoder ([json.loads]) on flat string objects *)

(** The value of a hexadecimal digit, in either case. *)
Definition hex_value (c : N) : option N :=
  (if (48 <=? c) && (c <=? 57) then Some (c - 48)
   else if (97 <=? c) && (c <=? 102) then Some (c - 87)
   else if (65 <=? c) && (c <=? 70) then Some (c - 55)
   else None)%N.

Definition hex4_value (a b c d : N) : option N :=
  match hex_value a, hex_value b, hex_value c, hex_value d with
  | Some x, Some y, Some z, Some t => Some (4096 * x + 256 * y + 16 * z + t)%N
  | _, _, _, _ => None
  end.

(** The two halves of a surrogate pair, and the code point of a pair. *)
Definition is_high (c : N) : bool := ((55296 <=? c) && (c <=? 56319))%N.
Definition is_low (c : N) : bool := ((56320 <=? c) && (c <=? 57343))%N.
Definition pair_value (hi lo : N) : N :=
  (65536 + (hi - 55296) * 1024 + (lo - 56320))%N.

(** A code point that a [str] can hold. *)
Definition valid (c : N) : bool := (c <? 1114112)%N.

(** The text that the decoder gives for an encoded text: a high surrogate
    followed by a low one has become the code point of the pair. *)
Fixpoint fuse (s : pystr) : pystr :=
  match s with
  | [] => []
  | h :: t =>
      match t with
      | l :: r =>
          if is_high h && is_low l then pair_value h l :: fuse r
          else h :: fuse t
      | [] => [h]
      end
  end.

(** Text of code points that a [str] can hold; a record of such text. *)
Definition valid_str (s : pystr) : bool := forallb valid s.

Definition valid_record (d : list (pystr * pystr)) : bool :=
  forallb (fun kv => valid_str kv.1 && valid_str kv.2) d.

(** Text without a high surrogate; a record of such text. *)
Definition plain_str (s : pystr) : bool := forallb (fun c => negb (is_high c)) s.

Definition plain_record (d : list (pystr * pystr)) : bool :=
  forallb (fun kv => plain_str kv.1 && plain_str kv.2) d.

Definition fuse_item (kv : pystr * pystr) : pystr * pystr := (fuse kv.1, fuse kv.2).

Definition is_space (c : N) : bool :=
  ((c =? 32) || (c =? 9) || (c =? 10) || (c =? 13))%N.

Fixpoint skip_ws (s : pystr) : pystr :=
  match s with
  | c :: s' => if is_space c then skip_ws s' else s
  | [] => s
  end.

(** The short escapes: the letter after the backslash and the character
    it stands for. *)
Definition short_escapes : list (N * N) :=
  [(92, 92); (34, 34); (98, 8); (102, 12); (110, 10); (114, 13); (116, 9)]%N.

(** One more decoded character in front of what the rest decodes to. *)
Definition prepend (c : N) (r : option (pystr * pystr)) : option (pystr * pystr) :=
  match r with
  | Some (t, rest) => Some (c :: t, rest)
  | None => None
  end.

(** The body of a string literal, after the opening quote: the decoded
    text and what follows the closing quote.  After the escape of a high
    surrogate, the escape of a low surrogate is taken with it. *)
Fixpoint loads_str_body (s : pystr) : option (pystr * pystr) :=
  match s with
  | [] => None
  | c :: s1 =>
      if (c =? DQUOTE)%N then Some ([], s1)
      else if (c =? BACKSLASH)%N then
        match s1 with
        | e :: s2 =>
            if (e =? DQUOTE)%N then prepend DQUOTE (loads_str_body s2)
            else if (e =? BACKSLASH)%N then prepend BACKSLASH (loads_str_body s2)
            else if (e =? 47)%N then prepend 47%N (loads_str_body s2)
            else if (e =? 98)%N then prepend 8%N (loads_str_body s2)
            else if (e =? 102)%N then prepend 12%N (loads_str_body s2)
            else if (e =? 110)%N then prepend 10%N (loads_str_body s2)
            else if (e =? 114)%N then prepend 13%N (loads_str_body s2)
            else if (e =? 116)%N then prepend 9%N (loads_str_body s2)
            else if (e =? 117)%N then
              match s2 with
              | h1 :: h2 :: h3 :: h4 :: s3 =>
                  match hex4_value h1 h2 h3 h4 with
                  | Some uni =>
                      if is_high uni then
                        match s3 with
                        | b :: u :: s4 =>
                            if (b =? BACKSLASH)%N && (u =? 117)%N then
                              match s4 with
                              | g1 :: g2 :: g3 :: g4 :: s5 =>
                                  match hex4_value g1 g2 g3 g4 with
                                  | Some uni2 =>
                                      if is_low uni2
                                      then prepend (pair_value uni uni2) (loads_str_body s5)
                                      else prepend uni (loads_str_body s3)
                                  | None => None
                                  end
                              | _ => None
                              end
                            else prepend uni (loads_str_body s3)
                        | _ => prepend uni (loads_str_body s3)
                        end
                      else prepend uni (loads_str_body s3)
                  | None => None
                  end
              | _ => None
              end
            else None
        | [] => None
        end
      else if (c <? 32)%N then None
      else prepend c (loads_str_body s1)
  end.

(** What can follow the escape of a high surrogate without being taken
    for its low half: the end, a single character, two characters other
    than a backslash and [u], or the escape of something that is no low
    surrogate. *)
Inductive lone_ahead : pystr -> Prop :=
| lone_end : lone_ahead []
| lone_one b : lone_ahead [b]
| lone_other b u T :
    (b =? BACKSLASH)%N && (u =? 117)%N = false -> lone_ahead (b :: u :: T)
| lone_u g1 g2 g3 g4 T uni2 :
    hex4_value g1 g2 g3 g4 = Some uni2 -> is_low uni2 = false ->
    lone_ahead (BACKSLASH :: 117%N :: g1 :: g2 :: g3 :: g4 :: T).

Definition loads_str (s : pystr) : option (pystr * pystr) :=
  match skip_ws s with
  | c :: s' => if (c =? DQUOTE)%N then loads_str_body s' else None
  | [] => None
  end.

Definition expect (c : N) (s : pystr) : option pystr :=
  match skip_ws s with
  | a :: s' => if (a =? c)%N then Some s' else None
  | [] => None
  end.

(** Members after the first, up to the closing brace. *)
Fixpoint loads_members (fuel : nat) (s : pystr) : option (list (pystr * pystr) * pystr) :=
  match fuel with
  | O => None
  | S fuel' =>
      match skip_ws s with
      | c :: r =>
          if (c =? 125)%N then Some ([], r)
          else if (c =? 44)%N then
            match loads_str r with
            | Some (k, r1) =>
                match expect 58 r1 with
                | Some r2 =>
                    match loads_str r2 with
                    | Some (v, r3) =>
                        match loads_members fuel' r3 with
                        | Some (kvs, r4) => Some ((k, v) :: kvs, r4)
                        | None => None
                        end
                    | None => None
                    end
                | None => None
                end
            | None => None
            end
          else None
      | [] => None
      end
  end.

(** A whole document: one object whose values are strings. *)
Definition loads (s : pystr) : option (list (pystr * pystr)) :=
  match expect 123 s with
  | Some r =>
      match expect 125 r with
      | Some r' =>
          match skip_ws r' with
          | [] => Some []
          | _ => None
          end
      | None =>
          match loads_str r with
          | Some (k, r1) =>
              match expect 58 r1 with
              | Some r2 =>
                  match loads_str r2 with
                  | Some (v, r3) =>
                      match loads_members (S (length r3)) r3 with
                      | Some (kvs, r4) =>
                          match skip_ws r4 with
                          | [] => Some ((k, v) :: kvs)
                          | _ => None
                          end
                      | None => None
                      end
                  | None => None
                  end
              | None => None
              end
          | None => None
          end
      end
  | None => None
  end.

End Json.

(** ** Text encodings *)

(** The encodings of text files, as far as writing goes: UTF-8, ASCII,
    Latin-1, or another one given by the characters it can encode. *)
Inductive Encoding : Type :=
| UTF8
| ASCII
| LATIN1
| Charset (has : N -> bool).

(** The characters that UTF-8 encodes: every code point of Unicode
    outside the surrogate range. *)
Definition utf8_char (c : N) : bool :=
  ((c <? 55296) || ((57343 <? c) && (c <? 1114112)))%N.

(** Whether an encoding can encode a character. *)
Definition encodes (e : Encoding) (c : N) : bool :=
  match e with
  | UTF8 => utf8_char c
  | ASCII => (c <? 128)%N
  | LATIN1 => (c <? 256)%N
  | Charset has => has c
  end.

(** ** The process's view of the outside: files, directories and standard
    output *)

(** [files] maps the path of each regular file to its text and [dirs]
    holds the directories that exist, each under the spelling by which
    the code names it.  [refused] holds the paths that the system refuses
    to open for writing for a reason of its own, with the error it
    reports ([PermissionError] for missing rights or a read-only medium,
    [OSError] for a name that is too long or a medium that is full).
    [preferred] is the preferred encoding of the process, which a text
    file opened without [encoding] takes. *)
Record World : Type := mkWorld {
  files : gmap pystr pystr;
  dirs : gset pystr;
  refused : gmap pystr exn;
  preferred : Encoding;
  stdout : list pystr
}.

(** Code with effects: from a world to an outcome and the world left. *)
Definition io (A : Type) : Type := World -> result A * World.

Definition io_ret {A} (a : A) : io A := fun w => (ret a, w).

Definition io_bind {A B} (m : io A) (k : A -> io B) : io B :=
  fun w =>
    match m w with
    | (inl e, w') => (inl e, w')
    | (inr a, w') => k a w'
    end.

(** A computation without effects, inside one with effects. *)
Definition lift {A} (r : result A) : io A := fun w => (r, w).

Notation "'run' x <- m ; k" := (io_bind m (fun x => k))
  (at level 10, x name, m at level 99, k at level 200).

(** [for x in l: body(x)]. *)
Fixpoint for_each {A} (l : list A) (body : A -> io unit) : io unit :=
  match l with
  | [] => io_ret tt
  | x :: l' => run _ <- body x; for_each l' body
  end.

Module Io.

(** The characters that a path may hold: those of UTF-8, and the
    surrogates U+DC80..U+DCFF by which undecodable bytes of a file name
    are carried. *)
Definition fs_char (c : N) : bool :=
  utf8_char c || ((56448 <=? c) && (c <=? 56575))%N.

(** A path has no NUL character. *)
Definition no_nul (path : pystr) : bool := forallb (fun c => negb (c =? 0)%N) path.

(** Whether [open(path, "w")] succeeds: the path can be passed to the
    system, is not empty and names no directory, the directory it lies in
    exists (the current one when the path has no directory part), and the
    system does not refuse. *)
Definition openable (w : World) (path : pystr) : bool :=
  forallb fs_char path
  && no_nul path
  && negb (length path =? 0)%nat
  && negb (length (OsPath.basename path) =? 0)%nat
  && bool_decide (path ∉ dirs w)
  && ((length (OsPath.dirname path) =? 0)%nat
      || bool_decide (OsPath.dirname path ∈ dirs w))
  && bool_decide (refused w !! path = None).

(** What [open(path, "w")] raises when it fails. *)
Definition open_error (w : World) (path : pystr) : exn :=
  if negb (forallb fs_char path) then UnicodeEncodeError
  else if negb (no_nul path) then ValueError "embedded null byte"
  else if (length path =? 0)%nat then FileNotFoundError path
  else if (length (OsPath.basename path) =? 0)%nat
          || bool_decide (path ∈ dirs w) then IsADirectoryError path
  else if negb ((length (OsPath.dirname path) =? 0)%nat
                || bool_decide (OsPath.dirname path ∈ dirs w))
  then FileNotFoundError path
  else match refused w !! path with
       | Some e => e
       | None => PermissionError path
       end.

(** A file open for writing in text mode: its path and its encoding. *)
Record Handle : Type := mkHandle {
  handle_path : pystr;
  handle_encoding : Encoding
}.

(** [open(path, "w", encoding=...)]: on success the file exists and is
    empty, and the handle stands for it, with the encoding asked for or
    the preferred one; on failure nothing changes. *)
Definition open_w (path : pystr) (encoding : option Encoding) : io Handle :=
  fun w =>
    if openable w path
    then (ret (mkHandle path (default (preferred w) encoding)),
          mkWorld (<[path := []]> (files w)) (dirs w) (refused w) (preferred w)
            (stdout w))
    else (raise (open_error w path), w).

(** [f.write(text)]: the text goes at the end of what the file holds; a
    text with a character outside the encoding raises and nothing of it
    is written. *)
Definition write (f : Handle) (text : pystr) : io unit :=
  fun w =>
    if forallb (encodes (handle_encoding f)) text
    then (ret tt,
          mkWorld (alter (fun old => old ++ text) (handle_path f) (files w))
            (dirs w) (refused w) (preferred w) (stdout w))
    else (raise UnicodeEncodeError, w).

(** [print(text)]. *)
Definition print (text : pystr) : io unit :=
  fun w =>
    (ret tt,
     mkWorld (files w) (dirs w) (refused w) (preferred w) (stdout w ++ [text])).

End Io.

(** ** benchmarks/humaneval/inference.py *)

Module Inference.

Definition BEGIN_MARK : pystr := str "<FINAL_ANSWER>".
Definition END_MARK : pystr := str "</FINAL_ANSWER>".
Definition NL : pystr := [10%N].

(** [parse_result]: the text between the two tags, [""] when a tag is
    missing. *)
Definition parse_result (result : pystr) : pystr :=
  let start_idx := PyStr.find result BEGIN_MARK in
  let end_idx := PyStr.find result END_MARK in
  if negb (start_idx =? -1) && negb (end_idx =? -1)
  then PyStr.slice result (start_idx + Z.of_nat (length BEGIN_MARK)) end_idx
  else [].

(** A result record: a dict with string keys and values, in insertion
    order. *)
Definition ResultRecord : Type := list (pystr * pystr).

(** [write_output_func]: open the output file for writing, write one
    encoded record and a line feed per element, then report the count. *)
Definition write_output_func (result_list : list ResultRecord)
    (output_file : pystr) : io unit :=
  run file <- Io.open_w output_file (Some UTF8);
  run _ <- for_each result_list
             (fun result =>
                let json_line := Json.dumps result in
                Io.write file (json_line ++ NL));
  Io.print (str "Write results num: " ++ str (pretty (length result_list))).

(** A dataset item: a mapping from field name to text. *)
Definition BenchmarkRecord : Type := gmap pystr pystr.

(** [d[key]]. *)
Definition getitem {V} (d : gmap pystr V) (key : pystr) : result V :=
  match d !! key with
  | Some v => ret v
  | None => raise (KeyError key)
  end.

(** An agent of the benchmark, as far as this adapter uses it. *)
Record Agent : Type := mkAgent { run_humaneval : pystr -> pystr }.

(** The run's settings, as [__main__] fills them in. *)
Record MetaData : Type := mkMetaData {
  dataset : list BenchmarkRecord;
  agent_type : pystr;
  output_file : pystr;
  on_aios : bool;
  max_num : option Z
}.

Section Adapter.

(** The registry of agent constructors ([experiment_core], imported by the
    module) and the directory of the module file ([os.path.dirname(__file__)]). *)
Variable AGENT_TYPE_MAPPING_AIOS : gmap pystr (bool -> Agent).
Variable module_dir : pystr.

Definition process_one_func (data : BenchmarkRecord) (meta_data : MetaData)
    : io ResultRecord :=
  run make_agent <- lift (getitem AGENT_TYPE_MAPPING_AIOS (agent_type meta_data));
  let agent := make_agent (on_aios meta_data) in
  run prompt <- lift (getitem data (str "prompt"));
  let result := run_humaneval agent prompt in
  let result := parse_result result in
  run prompt <- lift (getitem data (str "prompt"));
  run test <- lift (getitem data (str "test"));
  run entry_point <- lift (getitem data (str "entry_point"));
  let check_program :=
    ((((prompt ++ result) ++ NL) ++ test) ++ NL)
      ++ (str "check(" ++ entry_point ++ str ")") in
  run full_id <- lift (getitem data (str "task_id"));
  run task_id <- lift (PyStr.last_item (PyStr.split 47 full_id));
  let path := OsPath.join module_dir (str "programs") in
  run f <- Io.open_w (OsPath.join path (str "program" ++ task_id ++ str ".py")) None;
  run _ <- Io.write f check_program;
  run full_id <- lift (getitem data (str "task_id"));
  let prediction := [(str "task_id", full_id); (str "completion", result)] in
  io_ret prediction.

End Adapter.

End Inference.

(** ** cerebrum/llm/apis.py *)

Module Apis.

(** Modelled from the spec: the base classes [Query] and [Response] of
    [cerebrum.utils.communication] are not among the sources.  They are
    plain schema classes that declare only the discriminator field
    ([query_class], [response_class]) and run no validator of their own:
    construction fails only when a required field is absent or a value
    falls outside its enumerated set.  What they add to the failures of a
    subclass is therefore nothing. *)
Definition base_errors : list string := [].

(** A required field that is not given is reported. *)
Definition missing {A} (name : string) (given : option A) : list string :=
  match given with
  | None => [name]
  | Some _ => []
  end.

(** A [Literal[...]] field: a given value must be one of the choices. *)
Definition not_literal (name : string) (choices : list string)
    (given : option string) : list string :=
  match given with
  | Some v => if bool_decide (v ∈ choices) then [] else [name]
  | None => []
  end.

Record LLMQuery : Type := mkLLMQuery {
  query_class : string;
  llms : option (list py_dict);
  messages : list py_dict;
  tools : option (list py_dict);
  action_type : string;
  message_return_type : string
}.

(** The keyword arguments of [LLMQuery(...)], each of the type that its
    field declares: [None] for one left out.  Values of another type,
    which the validation converts or rejects field by field, are outside
    this record. *)
Record LLMQuery_kwargs : Type := mkLLMQuery_kwargs {
  kw_query_class : option string;
  kw_llms : option (option (list py_dict));
  kw_messages : option (list py_dict);
  kw_tools : option (option (list py_dict));
  kw_action_type : option string;
  kw_message_return_type : option string
}.

Definition ACTION_TYPES : list string := ["chat"; "tool_use"; "operate_file"].

(** [LLMQuery(...)] called with keywords of the declared types: the
    required field must be there and the action type among its choices;
    the failures are reported together. *)
Definition LLMQuery_new (kw : LLMQuery_kwargs) : result LLMQuery :=
  let errors :=
    base_errors
    ++ missing "messages" (kw_messages kw)
    ++ not_literal "action_type" ACTION_TYPES (kw_action_type kw) in
  match errors, kw_messages kw with
  | [], Some msgs =>
      ret {| query_class := default "llm" (kw_query_class kw);
             llms := default None (kw_llms kw);
             messages := msgs;
             tools := default (Some []) (kw_tools kw);
             action_type := default "chat" (kw_action_type kw);
             message_return_type := default "text" (kw_message_return_type kw) |}
  | _, _ => raise (ValidationError errors)
  end.

Record LLMResponse : Type := mkLLMResponse {
  response_class : string;
  response_message : option string;
  tool_calls : option (list py_dict);
  finished : bool;
  error : option string;
  status_code : Z
}.

(** The keyword arguments of [LLMResponse(...)], each of the type that
    its field declares. *)
Record LLMResponse_kwargs : Type := mkLLMResponse_kwargs {
  kw_response_class : option string;
  kw_response_message : option (option string);
  kw_tool_calls : option (option (list py_dict));
  kw_finished : option bool;
  kw_error : option (option string);
  kw_status_code : option Z
}.

(** [LLMResponse(...)] called with keywords of the declared types: every
    field has a default and no validator relates one field to another. *)
Definition LLMResponse_new (kw : LLMResponse_kwargs) : result LLMResponse :=
  let errors := base_errors in
  match errors with
  | [] =>
      ret {| response_class := default "llm" (kw_response_class kw);
             response_message := default None (kw_response_message kw);
             tool_calls := default None (kw_tool_calls kw);
             finished := default false (kw_finished kw);
             error := default None (kw_error kw);
             status_code := default 200 (kw_status_code kw) |}
  | _ => raise (ValidationError errors)
  end.

(** [LLMQuery()] and [LLMResponse()]: no keyword given. *)
Definition no_query_kwargs : LLMQuery_kwargs :=
  mkLLMQuery_kwargs None None None None None None.

Definition no_response_kwargs : LLMResponse_kwargs :=
  mkLLMResponse_kwargs None None None None None None.

End Apis.

(** ** cerebrum/llm/layer.py *)

Module Layer.

Record LLMItem : Type := mkLLMItem {
  llm_name : string;
  max_gpu_memory : option py_dict;
  eval_device : string;
  max_new_tokens : Z;
  log_mode : string;
  llm_backend : string
}.

(** [LLMItem(llm_name)] with the declared defaults. *)
Definition LLMItem_new (name : string) : LLMItem :=
  mkLLMItem name None "cuda:0" 2048 "console" "default".

Record LLMLayer : Type := mkLLMLayer { llms : list LLMItem }.

(** Truth value of a list: false exactly when it is empty. *)
Definition truthy {A} (l : list A) : bool :=
  match l with
  | [] => false
  | _ :: _ => true
  end.

Definition post_init (self : LLMLayer) : result unit :=
  if negb (truthy (llms self))
  then raise (ValueError "LLMLayer must contain at least one LLM")
  else ret tt.

(** [LLMLayer(llms)]: the generated initialiser stores the field, then
    runs [__post_init__]. *)
Definition LLMLayer_new (llms : list LLMItem) : result LLMLayer :=
  let self := mkLLMLayer llms in
  do _ <- post_init self;
  ret self.

End Layer.

(** ** The transport adapter *)

Module Communication.

(** What one outbound call can come to. *)
Inductive outcome : Type :=
| ConnectionFailed (cause : string)
| TimedOut
| Replied (status : Z) (body : option Apis.LLMResponse).

(** The response that reports a failure. *)
Definition error_response (cause : string) (code : Z) : Apis.LLMResponse :=
  Apis.mkLLMResponse "llm" None None false (Some cause) code.

(** The outcomes that the adapter reports as an error: no reply, a status
    outside 2xx, or a reply that does not decode. *)
Definition failed (o : outcome) : bool :=
  match o with
  | ConnectionFailed _ | TimedOut => true
  | Replied status body =>
      negb ((200 <=? status) && (status <? 300))
      || match body with Some _ => false | None => true end
  end.

(** The status code seen on the wire, if any. *)
Definition observed_status (o : outcome) : option Z :=
  match o with
  | ConnectionFailed _ | TimedOut => None
  | Replied status _ => Some status
  end.

Section Transport.

(** The network, the wire encoding of a query and the status code that
    stands for a failure below HTTP. *)
Variable post : string -> string -> outcome.
Variable serialize : Apis.LLMQuery -> string.
Variable sentinel : Z.

(** Modelled from the spec: [send_request] of
    [cerebrum.utils.communication] is not among the sources.  One call to
    [base_url] addressed to the agent; a network failure, a timeout, a
    malformed reply or a status outside 2xx becomes a response with
    [finished = false], a cause in [error] and the observed status code
    (the sentinel when there is none); nothing is raised and nothing is
    retried. *)
Definition send_request (agent_name : string) (query : Apis.LLMQuery)
    (base_url : string) : Apis.LLMResponse :=
  match post (base_url +:+ "/" +:+ agent_name) (serialize query) with
  | ConnectionFailed cause =>
      error_response ("network failure: " +:+ cause) sentinel
  | TimedOut => error_response "timeout" sentinel
  | Replied status body =>
      if (200 <=? status) && (status <? 300) then
        match body with
        | Some response => response
        | None => error_response "malformed reply" status
        end
      else error_response ("HTTP status " +:+ pretty status) status
  end.

End Transport.

End Communication.

(** ** cerebrum/llm/apis.py: the three calls *)

Module ApisCalls.

Definition DEFAULT_BASE_URL : string := "http://localhost:8000".

Section Calls.

(** [send_request], imported from [cerebrum.utils.communication]: any
    function of the agent name, the query and the base URL that returns a
    response or raises. *)
Variable send_request : string -> Apis.LLMQuery -> string -> result Apis.LLMResponse.

(** [llm_chat(agent_name, messages, base_url=..., llms=None)]. *)
Definition llm_chat (agent_name : string) (messages : list py_dict)
    (base_url : option string) (llms : option (list py_dict))
    : result Apis.LLMResponse :=
  do query <- Apis.LLMQuery_new
      {| Apis.kw_query_class := None;
         Apis.kw_llms := Some llms;
         Apis.kw_messages := Some messages;
         Apis.kw_tools := Some None;
         Apis.kw_action_type := Some "chat";
         Apis.kw_message_return_type := None |};
  send_request agent_name query (default DEFAULT_BASE_URL base_url).

(** [llm_call_tool(agent_name, messages, tools, base_url=..., llms=None)]. *)
Definition llm_call_tool (agent_name : string) (messages : list py_dict)
    (tools : list py_dict) (base_url : option string) (llms : option (list py_dict))
    : result Apis.LLMResponse :=
  do query <- Apis.LLMQuery_new
      {| Apis.kw_query_class := None;
         Apis.kw_llms := Some llms;
         Apis.kw_messages := Some messages;
         Apis.kw_tools := Some (Some tools);
         Apis.kw_action_type := Some "tool_use";
         Apis.kw_message_return_type := None |};
  send_request agent_name query (default DEFAULT_BASE_URL base_url).

(** [llm_operate_file(agent_name, messages, tools, base_url=..., llms=None)]. *)
Definition llm_operate_file (agent_name : string) (messages : list py_dict)
    (tools : list py_dict) (base_url : option string) (llms : option (list py_dict))
    : result Apis.LLMResponse :=
  do query <- Apis.LLMQuery_new
      {| Apis.kw_query_class := None;
         Apis.kw_llms := Some llms;
         Apis.kw_messages := Some messages;
         Apis.kw_tools := Some (Some tools);
         Apis.kw_action_type := Some "operate_file";
         Apis.kw_message_return_type := None |};
  send_request agent_name query (default DEFAULT_BASE_URL base_url).

End Calls.

End ApisCalls.

(** ** cerebrum/commands/list_tools.py *)

Module ListTools.

(** A column as [add_column] is called here: header, style and the layout
    keywords given ([None] for one left out). *)
Record Column : Type := mkColumn {
  header : string;
  style : string;
  no_wrap : option bool;
  width : option Z;
  overflow : option string
}.

Record Table : Type := mkTable {
  title : string;
  box : string;
  show_header : bool;
  header_style : string;
  show_lines : bool;
  columns : list Column;
  rows : list (list string)
}.

(** The text of a line feed. *)
Definition NL : string := String "010" EmptyString.

(** What the console is asked to print. *)
Inductive Renderable : Type :=
| Plain (text : string)
| Panel (body : string) (panel_title : string)
| Tabular (table : Table)
| Styled (segments : list (string * string)).

(** [table.add_column(...)] and [table.add_row(...)]. *)
Definition add_column (c : Column) (t : Table) : Table :=
  mkTable (title t) (box t) (show_header t) (header_style t) (show_lines t)
    (columns t ++ [c]) (rows t).

Definition add_row (cells : list string) (t : Table) : Table :=
  mkTable (title t) (box t) (show_header t) (header_style t) (show_lines t)
    (columns t) (rows t ++ [cells]).

(** [tool.get(key, fallback)]. *)
Definition get (tool : gmap string string) (key fallback : string) : string :=
  default fallback (tool !! key).

(** The cells of the row of one tool. *)
Definition tool_row (tool : gmap string string) : list string :=
  [get tool "name" "Unknown";
   get tool "description" "No description available";
   get tool "author" "Unknown";
   get tool "version" "N/A"].

(** [list_tools], from the list that the tool manager returns on: what is
    printed is added to the console.  The status spinner shown while the
    list is fetched leaves nothing behind. *)
Definition list_tools (tools : list (gmap string string))
    (console : list Renderable) : list Renderable :=
  match tools with
  | [] =>
      console ++ [Panel "[bold yellow]No tools found in AgentHub" "Tool List"]
  | _ :: _ =>
      let table :=
        mkTable "Available Tools in AgentHub" "ROUNDED" true
          "bold white on blue" true [] [] in
      let table := add_column (mkColumn "Name" "cyan bold" (Some true) None None) table in
      let table :=
        add_column (mkColumn "Description" "green" None (Some 40) (Some "fold")) table in
      let table := add_column (mkColumn "Author" "blue" (Some true) None None) table in
      let table :=
        add_column (mkColumn "Latest Version" "magenta" (Some true) None None) table in
      let table :=
        fold_left
          (fun table tool =>
             let name := get tool "name" "Unknown" in
             let description := get tool "description" "No description available" in
             let author := get tool "author" "Unknown" in
             let version := get tool "version" "N/A" in
             add_row [name; description; author; version] table)
          tools table in
      let console := console ++ [Plain NL] in
      let console := console ++ [Tabular table] in
      let summary := [] in
      let summary := summary ++ [(NL +:+ "Total tools available: ", "bold")] in
      let summary := summary ++ [(pretty (length tools), "bold green")] in
      let console := console ++ [Styled summary] in
      console ++ [Plain NL]
  end.

End ListTools.

(** ** The end-to-end scenario of the specification: two records and a
    stub agent that answers every prompt the same way *)

Module Scenario.

Definition stub_agent : Inference.Agent :=
  Inference.mkAgent (fun _ => str "<FINAL_ANSWER>    return x</FINAL_ANSWER>").

Definition registry : gmap pystr (bool -> Inference.Agent) :=
  {[ str "humaneval:stub" := fun _ => stub_agent ]}.

Definition record (task_id : pystr) : Inference.BenchmarkRecord :=
  <[str "task_id" := task_id]>
    (<[str "prompt" := str "def f(x):" ++ Inference.NL]>
       (<[str "test" := str "assert f(1)==1"]> {[ str "entry_point" := str "f" ]})).

Definition meta : Inference.MetaData :=
  Inference.mkMetaData [record (str "A/1"); record (str "A/2")]
    (str "humaneval:stub") (str "out.jsonl") true (Some 2).

Definition module_dir : pystr := str "/repo/benchmarks/humaneval".

(** No file yet; the [programs] directory is there, nothing is refused
    and the preferred encoding is UTF-8. *)
Definition empty_world : World :=
  mkWorld ∅ {[ str "/repo/benchmarks/humaneval/programs" ]} ∅ UTF8 [].

(** The same without the [programs] directory. *)
Definition bare_world : World := mkWorld ∅ ∅ ∅ UTF8 [].

(** The same with ASCII as the preferred encoding. *)
Definition ascii_world : World :=
  mkWorld ∅ {[ str "/repo/benchmarks/humaneval/programs" ]} ∅ ASCII [].

Definition results : list Inference.ResultRecord :=
  [ [(str "task_id", str "A/1"); (str "completion", str "    return x")];
    [(str "task_id", str "A/2"); (str "completion", str "    return x")] ].

(** The text of the side file of a record of the scenario. *)
Definition side_text : pystr :=
  str "def f(x):" ++ Inference.NL ++ str "    return x" ++ Inference.NL
  ++ str "assert f(1)==1" ++ Inference.NL ++ str "check(f)".

End Scenario.

(** ** Proof automation *)

(** Linear arithmetic with division and remainder on [N]. *)
Ltac nlia := zify; Z.to_euclidean_division_equations; lia.

Ltac N_cases :=
  repeat match goal with
    | |- context [N.eqb ?a ?b] => destruct (N.eqb_spec a b)
    | |- context [N.leb ?a ?b] => destruct (N.leb_spec a b)
    | |- context [N.ltb ?a ?b] => destruct (N.ltb_spec a b)
    end.

(** * Properties *)

(** ** Strings: prefix, search and slices *)

Section StringFacts.

Implicit Types s t sub pre post rest : pystr.

Lemma startswith_nil s : PyStr.startswith s [] = true.
Proof. destruct s; reflexivity. Qed.

Lemma startswith_cons a sub b s :
  PyStr.startswith (b :: s) (a :: sub) = (a =? b)%N && PyStr.startswith s sub.
Proof. reflexivity. Qed.

Lemma startswith_app sub rest : PyStr.startswith (sub ++ rest) sub = true.
Proof.
  induction sub as [|a sub IH]; [apply startswith_nil|].
  simpl. rewrite N.eqb_refl. exact IH.
Qed.

Lemma startswith_split s sub :
  PyStr.startswith s sub = true -> exists rest, s = sub ++ rest.
Proof.
  revert s. induction sub as [|a sub IH]; intros s H.
  - exists s. reflexivity.
  - destruct s as [|b s]; [discriminate|].
    rewrite startswith_cons in H. apply andb_true_iff in H as [Hab H].
    apply N.eqb_eq in Hab as ->.
    destruct (IH _ H) as [rest ->]. exists rest. reflexivity.
Qed.

(** A match that runs into text starting with a character the pattern
    does not have ends before that text. *)
Lemma startswith_before_fresh c sub p rest :
  c ∉ sub ->
  PyStr.startswith (p ++ c :: rest) sub = true ->
  PyStr.startswith p sub = true.
Proof.
  revert p. induction sub as [|a sub IH]; intros p Hc H.
  - apply startswith_nil.
  - apply not_elem_of_cons in Hc as [Hca Hc].
    destruct p as [|b p].
    + simpl in H. apply andb_true_iff in H as [Hab _].
      apply N.eqb_eq in Hab. congruence.
    + simpl in H |- *. apply andb_true_iff in H as [Hab H].
      rewrite Hab. simpl. eauto.
Qed.

Lemma occurs_cons sub a s : PyStr.occurs sub s -> PyStr.occurs sub (a :: s).
Proof.
  intros (pre & post & ->). exists (a :: pre), post. reflexivity.
Qed.

Lemma occurs_prefix sub s : PyStr.startswith s sub = true -> PyStr.occurs sub s.
Proof.
  intros H. destruct (startswith_split _ _ H) as [rest ->].
  exists [], rest. reflexivity.
Qed.

Lemma occurs_suffix sub p1 p2 : PyStr.occurs sub p2 -> PyStr.occurs sub (p1 ++ p2).
Proof.
  intros (pre & post & ->). exists (p1 ++ pre), post.
  rewrite <- List.app_assoc. reflexivity.
Qed.

Lemma occurs_length sub s : PyStr.occurs sub s -> (length sub <= length s)%nat.
Proof. intros (pre & post & ->). rewrite !length_app. lia. Qed.

Lemma find_at_nil sub i :
  PyStr.find_at sub [] i = if PyStr.startswith [] sub then i else -1.
Proof. reflexivity. Qed.

Lemma find_at_cons sub a s i :
  PyStr.find_at sub (a :: s) i
  = if PyStr.startswith (a :: s) sub then i else PyStr.find_at sub s (i + 1).
Proof. reflexivity. Qed.

Lemma find_at_here sub rest i : PyStr.find_at sub (sub ++ rest) i = i.
Proof.
  destruct (sub ++ rest) as [|b r] eqn:E.
  - rewrite find_at_nil, <- E, startswith_app. reflexivity.
  - rewrite find_at_cons, <- E, startswith_app. reflexivity.
Qed.

(** The scan returns [-1] or an index at or after its start. *)
Lemma find_at_range sub s i :
  PyStr.find_at sub s i = -1
  \/ i <= PyStr.find_at sub s i <= i + Z.of_nat (length s).
Proof.
  revert i. induction s as [|a s IH]; intros i.
  - rewrite find_at_nil.
    destruct (PyStr.startswith [] sub); [right; simpl; lia | left; reflexivity].
  - rewrite find_at_cons. simpl length.
    destruct (PyStr.startswith (a :: s) sub); [right; lia|].
    destruct (IH (i + 1)) as [->|?]; [left; reflexivity | right; lia].
Qed.

Lemma find_at_absent sub s i :
  ~ PyStr.occurs sub s -> PyStr.find_at sub s i = -1.
Proof.
  revert i. induction s as [|a s IH]; intros i Hno.
  - rewrite find_at_nil.
    destruct (PyStr.startswith [] sub) eqn:E; [|reflexivity].
    destruct Hno. apply occurs_prefix, E.
  - rewrite find_at_cons.
    destruct (PyStr.startswith (a :: s) sub) eqn:E.
    + destruct Hno. apply occurs_prefix, E.
    + apply IH. intros H. apply Hno, occurs_cons, H.
Qed.

(** An occurrence bounds the scan from above. *)
Lemma find_at_present sub pre post i :
  0 <= i ->
  i <= PyStr.find_at sub (pre ++ sub ++ post) i <= i + Z.of_nat (length pre).
Proof.
  revert i. induction pre as [|a pre IH]; intros i Hi.
  - simpl app. rewrite find_at_here. simpl. lia.
  - simpl app. rewrite find_at_cons. simpl length.
    destruct (PyStr.startswith (a :: pre ++ sub ++ post) sub); [lia|].
    specialize (IH (i + 1)). lia.
Qed.

Lemma find_absent_iff s sub : PyStr.find s sub = -1 <-> ~ PyStr.occurs sub s.
Proof.
  split.
  - intros H (pre & post & ->).
    pose proof (find_at_present sub pre post 0 ltac:(lia)) as B.
    unfold PyStr.find in H. lia.
  - apply find_at_absent.
Qed.

(** Skipping text in which no match starts. *)
Lemma find_at_skip sub pre rest i :
  (forall p1 p2, pre = p1 ++ p2 -> p2 <> [] ->
                 PyStr.startswith (p2 ++ rest) sub = false) ->
  PyStr.find_at sub (pre ++ rest) i
  = PyStr.find_at sub rest (i + Z.of_nat (length pre)).
Proof.
  revert i. induction pre as [|a pre IH]; intros i H.
  - simpl. f_equal. lia.
  - simpl app. rewrite find_at_cons.
    change (a :: pre ++ rest) with ((a :: pre) ++ rest).
    rewrite (H [] (a :: pre)) by done.
    rewrite IH.
    + f_equal. simpl length. lia.
    + intros p1 p2 -> Hp2. apply (H (a :: p1) p2); done.
Qed.

(** No match starts inside [pre] when the pattern does not occur in it and
    the text after it starts with a character that the pattern has only in
    first position, if at all. *)
Lemma find_at_skip_absent a sub c pre rest i :
  c ∉ sub ->
  ~ PyStr.occurs (a :: sub) pre ->
  PyStr.find_at (a :: sub) (pre ++ c :: rest) i
  = PyStr.find_at (a :: sub) (c :: rest) (i + Z.of_nat (length pre)).
Proof.
  intros Hc Hno. apply find_at_skip. intros p1 p2 -> Hp2.
  destruct (PyStr.startswith (p2 ++ c :: rest) (a :: sub)) eqn:E; [|reflexivity].
  destruct Hno. apply occurs_suffix, occurs_prefix.
  destruct p2 as [|b p2]; [done|].
  simpl in E |- *. apply andb_true_iff in E as [Hab E]. rewrite Hab. simpl.
  eapply startswith_before_fresh; eauto.
Qed.

(** Skipping text that lacks the first character of the pattern. *)
Lemma find_at_skip_nohead a sub p rest i :
  a ∉ p ->
  PyStr.find_at (a :: sub) (p ++ rest) i
  = PyStr.find_at (a :: sub) rest (i + Z.of_nat (length p)).
Proof.
  intros Ha. apply find_at_skip. intros p1 p2 -> Hp2.
  destruct p2 as [|b p2]; [done|].
  simpl. destruct (N.eqb_spec a b) as [->|]; [|reflexivity].
  destruct Ha. apply elem_of_app. right. left.
Qed.

(** A slice with bounds inside the string, in order. *)
Lemma slice_middle pre x post :
  PyStr.slice (pre ++ x ++ post)
    (Z.of_nat (length pre))
    (Z.of_nat (length pre) + Z.of_nat (length x)) = x.
Proof.
  unfold PyStr.slice, PyStr.clamp. rewrite !length_app.
  destruct (Z.ltb_spec (Z.of_nat (length pre)) 0); [lia|].
  destruct (Z.ltb_spec (Z.of_nat (length pre) + Z.of_nat (length x)) 0); [lia|].
  rewrite !Z.min_l by lia. rewrite Nat2Z.id.
  replace (Z.to_nat _) with (length x) by lia.
  rewrite drop_app_length, take_app_length. reflexivity.
Qed.

(** A slice whose upper bound is not above its lower bound is empty. *)
Lemma slice_crossed s lo hi :
  0 <= hi <= lo -> PyStr.slice s lo hi = [].
Proof.
  intros H. unfold PyStr.slice, PyStr.clamp.
  destruct (Z.ltb_spec lo 0); [lia|]. destruct (Z.ltb_spec hi 0); [lia|].
  replace (Z.to_nat (_ - _)) with 0%nat by lia.
  reflexivity.
Qed.

(** A slice is a contiguous part of the string; when it is not empty it
    ends at or before its upper bound. *)
Lemma slice_part s lo hi :
  0 <= hi ->
  exists a b,
    s = a ++ PyStr.slice s lo hi ++ b
    /\ (PyStr.slice s lo hi = []
        \/ Z.of_nat (length a + length (PyStr.slice s lo hi)) <= hi).
Proof.
  intros Hhi. unfold PyStr.slice.
  set (len := Z.of_nat (length s)).
  set (n := Z.to_nat (PyStr.clamp len lo)).
  set (m := Z.to_nat (PyStr.clamp len hi - PyStr.clamp len lo)).
  exists (take n s), (drop m (drop n s)). split.
  - rewrite (take_drop m (drop n s)), take_drop. reflexivity.
  - destruct (take m (drop n s)) as [|c x] eqn:E; [left; reflexivity|right].
    assert (Hx : (length (c :: x) <= m)%nat).
    { rewrite <- E, length_take. lia. }
    assert (Ha : (length (take n s) <= n)%nat) by (rewrite length_take; lia).
    simpl in Hx. assert (Hm : (0 < m)%nat) by lia.
    assert (Hclamp : PyStr.clamp len hi <= hi).
    { unfold PyStr.clamp. destruct (Z.ltb_spec hi 0); lia. }
    assert (Hlo : 0 <= PyStr.clamp len lo).
    { unfold PyStr.clamp. destruct (Z.ltb_spec lo 0); lia. }
    subst n m. simpl length. lia.
Qed.

End StringFacts.

(** ** [parse_result] *)

Section ParseResult.

Import Inference.

Implicit Types text pre post X : pystr.

Local Abbreviation LT := (60%N).
Local Abbreviation BEGIN_TAIL := (str "FINAL_ANSWER>").
Local Abbreviation END_TAIL := (str "/FINAL_ANSWER>").

Lemma BEGIN_MARK_cons : BEGIN_MARK = LT :: BEGIN_TAIL.
Proof. reflexivity. Qed.

Lemma END_MARK_cons : END_MARK = LT :: END_TAIL.
Proof. reflexivity. Qed.

Lemma lt_not_in_BEGIN_TAIL : LT ∉ BEGIN_TAIL.
Proof. compute_done. Qed.

Lemma lt_not_in_END_TAIL : LT ∉ END_TAIL.
Proof. compute_done. Qed.

Lemma END_MARK_length : length END_MARK = 15%nat.
Proof. reflexivity. Qed.

(** The first begin marker of [pre ++ BEGIN_MARK ++ rest] sits right after
    [pre] when [pre] has none. *)
Lemma find_begin pre rest :
  ~ PyStr.occurs BEGIN_MARK pre ->
  PyStr.find (pre ++ BEGIN_MARK ++ rest) BEGIN_MARK = Z.of_nat (length pre).
Proof.
  intros Hno. unfold PyStr.find.
  rewrite BEGIN_MARK_cons in Hno |- *. rewrite <- app_comm_cons.
  rewrite find_at_skip_absent by auto using lt_not_in_BEGIN_TAIL.
  rewrite app_comm_cons, find_at_here. lia.
Qed.

(** A begin marker is crossed without meeting an end marker. *)
Lemma find_end_over_begin rest i :
  PyStr.find_at END_MARK (BEGIN_MARK ++ rest) i
  = PyStr.find_at END_MARK rest (i + Z.of_nat (length BEGIN_MARK)).
Proof.
  rewrite BEGIN_MARK_cons, <- app_comm_cons, find_at_cons.
  replace (PyStr.startswith (LT :: BEGIN_TAIL ++ rest) END_MARK) with false
    by reflexivity.
  rewrite END_MARK_cons, find_at_skip_nohead by apply lt_not_in_BEGIN_TAIL.
  f_equal. simpl length. lia.
Qed.

Lemma find_end pre X post :
  ~ PyStr.occurs END_MARK pre ->
  ~ PyStr.occurs END_MARK X ->
  PyStr.find (pre ++ BEGIN_MARK ++ X ++ END_MARK ++ post) END_MARK
  = Z.of_nat (length pre) + Z.of_nat (length BEGIN_MARK) + Z.of_nat (length X).
Proof.
  intros Hpre HX. unfold PyStr.find.
  assert (Hskip : forall p rest i, ~ PyStr.occurs END_MARK p ->
            PyStr.find_at END_MARK (p ++ LT :: rest) i
            = PyStr.find_at END_MARK (LT :: rest) (i + Z.of_nat (length p))).
  { intros p rest i Hp. rewrite END_MARK_cons in Hp |- *.
    apply find_at_skip_absent; auto using lt_not_in_END_TAIL. }
  change (BEGIN_MARK ++ X ++ END_MARK ++ post)
    with (LT :: BEGIN_TAIL ++ X ++ END_MARK ++ post).
  rewrite Hskip by assumption.
  change (LT :: BEGIN_TAIL ++ X ++ END_MARK ++ post)
    with (BEGIN_MARK ++ X ++ END_MARK ++ post).
  rewrite find_end_over_begin.
  change (END_MARK ++ post) with (LT :: END_TAIL ++ post).
  rewrite Hskip by assumption.
  change (LT :: END_TAIL ++ post) with (END_MARK ++ post).
  rewrite find_at_here. lia.
Qed.

(** Before an end marker, a begin marker is found only in [pre]. *)
Lemma find_begin_after pre post :
  ~ PyStr.occurs BEGIN_MARK pre ->
  PyStr.find (pre ++ END_MARK ++ post) BEGIN_MARK = -1
  \/ Z.of_nat (length pre) <= PyStr.find (pre ++ END_MARK ++ post) BEGIN_MARK.
Proof.
  intros Hno. unfold PyStr.find.
  change (END_MARK ++ post) with (LT :: END_TAIL ++ post).
  rewrite BEGIN_MARK_cons in Hno |- *.
  rewrite find_at_skip_absent by auto using lt_not_in_BEGIN_TAIL.
  destruct (find_at_range (LT :: BEGIN_TAIL)
              (LT :: END_TAIL ++ post) (0 + Z.of_nat (length pre)))
    as [->|?]; [left; reflexivity | right; lia].
Qed.

Lemma parse_result_unfold text :
  parse_result text
  = if negb (PyStr.find text BEGIN_MARK =? -1) && negb (PyStr.find text END_MARK =? -1)
    then PyStr.slice text
           (PyStr.find text BEGIN_MARK + Z.of_nat (length BEGIN_MARK))
           (PyStr.find text END_MARK)
    else [].
Proof. reflexivity. Qed.

Lemma parse_result_missing text :
  ~ PyStr.occurs BEGIN_MARK text \/ ~ PyStr.occurs END_MARK text ->
  parse_result text = [].
Proof.
  intros H. rewrite parse_result_unfold.
  destruct H as [H|H]; apply find_absent_iff in H; rewrite H.
  - reflexivity.
  - rewrite andb_false_r. reflexivity.
Qed.

Lemma parse_result_enclosed pre X post :
  ~ PyStr.occurs BEGIN_MARK pre ->
  ~ PyStr.occurs END_MARK pre ->
  ~ PyStr.occurs END_MARK X ->
  parse_result (pre ++ BEGIN_MARK ++ X ++ END_MARK ++ post) = X.
Proof.
  intros Hb He HX. rewrite parse_result_unfold.
  rewrite find_begin, find_end by assumption.
  rewrite (proj2 (Z.eqb_neq _ _)) by lia.
  rewrite (proj2 (Z.eqb_neq _ _)) by lia.
  cbn [negb andb].
  rewrite (List.app_assoc pre BEGIN_MARK), <- Nat2Z.inj_add, <- length_app.
  apply slice_middle.
Qed.

(** An end marker ahead of every begin marker leaves nothing between the
    two indices. *)
Lemma parse_result_end_first pre post :
  ~ PyStr.occurs BEGIN_MARK pre ->
  parse_result (pre ++ END_MARK ++ post) = [].
Proof.
  intros Hb. rewrite parse_result_unfold.
  pose proof (find_at_present END_MARK pre post 0 ltac:(lia)) as He.
  fold (PyStr.find (pre ++ END_MARK ++ post) END_MARK) in He.
  destruct (find_begin_after pre post Hb) as [->|Hge]; [reflexivity|].
  destruct (negb _ && negb _); [|reflexivity].
  apply slice_crossed. simpl length. lia.
Qed.

Lemma find_nonneg_upper s sub :
  PyStr.find s sub <> -1 -> 0 <= PyStr.find s sub.
Proof.
  intros H. unfold PyStr.find in *.
  destruct (find_at_range sub s 0) as [?|?]; [contradiction|lia].
Qed.

(** The text sliced off before the first end marker has no end marker. *)
Lemma slice_before_first_end text lo :
  PyStr.find text END_MARK <> -1 ->
  ~ PyStr.occurs END_MARK (PyStr.slice text lo (PyStr.find text END_MARK)).
Proof.
  intros Hfound (p & q & Hx).
  pose proof (find_nonneg_upper _ _ Hfound) as Hge.
  destruct (slice_part text lo (PyStr.find text END_MARK) Hge) as (a & b & Ht & Hend).
  rewrite Hx in Ht, Hend.
  destruct Hend as [Hempty|Hend].
  - destruct p; discriminate.
  - rewrite !length_app, END_MARK_length in Hend.
    assert (Hocc : text = (a ++ p) ++ END_MARK ++ (q ++ b)).
    { rewrite Ht, <- !List.app_assoc. reflexivity. }
    pose proof (find_at_present END_MARK (a ++ p) (q ++ b) 0 ltac:(lia)) as Hle.
    rewrite <- Hocc in Hle. fold (PyStr.find text END_MARK) in Hle.
    rewrite length_app in Hle. lia.
Qed.

Lemma parse_result_no_end text : ~ PyStr.occurs END_MARK (parse_result text).
Proof.
  rewrite parse_result_unfold.
  destruct (Z.eqb_spec (PyStr.find text END_MARK) (-1)) as [He|He].
  - rewrite andb_false_r. intros (p & q & H). destruct p; discriminate.
  - destruct (negb _ && negb _).
    + apply slice_before_first_end, He.
    + intros (p & q & H). destruct p; discriminate.
Qed.

End ParseResult.

(** C1 (as amended).  [parse_result] returns the empty string when either
    marker is absent.  On a text [pre ++ "<FINAL_ANSWER>" ++ X ++
    "</FINAL_ANSWER>" ++ post] in which [pre] contains neither marker and
    [X] does not contain the end marker -- so that these are the first
    occurrences of both markers -- it returns exactly [X]. *)
Theorem parse_result_spec :
  (forall text,
      ~ PyStr.occurs Inference.BEGIN_MARK text \/ ~ PyStr.occurs Inference.END_MARK text ->
      Inference.parse_result text = [])
  /\ (forall pre X post,
      ~ PyStr.occurs Inference.BEGIN_MARK pre ->
      ~ PyStr.occurs Inference.END_MARK pre ->
      ~ PyStr.occurs Inference.END_MARK X ->
      Inference.parse_result
        (pre ++ Inference.BEGIN_MARK ++ X ++ Inference.END_MARK ++ post) = X).
Proof.
  split.
  - intros text Hno. apply parse_result_missing, Hno.
  - intros pre X post Hb He HX. apply parse_result_enclosed; assumption.
Qed.

(** The two cases of [parse_result_spec] on concrete replies: a reply with
    only the begin marker, and a reply with one enclosed answer. *)
Lemma parse_result_spec_witness :
  Inference.parse_result (str "<FINAL_ANSWER>abc") = []
  /\ Inference.parse_result
       (str "Sure: " ++ Inference.BEGIN_MARK ++ str "    return x"
        ++ Inference.END_MARK ++ str " done")
     = str "    return x".
Proof.
  split.
  - apply (proj1 parse_result_spec). right.
    apply find_absent_iff. reflexivity.
  - apply (proj2 parse_result_spec); apply find_absent_iff; reflexivity.
Defined.

(** C1 (as stated) fails: the text below contains
    ["<FINAL_ANSWER>X</FINAL_ANSWER>"] and both markers, yet the answer
    extracted is empty, because the first end marker is looked up from the
    start of the text. *)
Lemma parse_result_enclosed_not_returned :
  PyStr.occurs (Inference.BEGIN_MARK ++ str "X" ++ Inference.END_MARK)
    (str "</FINAL_ANSWER><FINAL_ANSWER>X</FINAL_ANSWER>")
  /\ Inference.parse_result (str "</FINAL_ANSWER><FINAL_ANSWER>X</FINAL_ANSWER>") = []
  /\ Inference.parse_result (str "</FINAL_ANSWER><FINAL_ANSWER>X</FINAL_ANSWER>")
     <> str "X".
Proof.
  split; [|split].
  - exists (str "</FINAL_ANSWER>"), []. reflexivity.
  - reflexivity.
  - discriminate.
Qed.

(** With two enclosed answers the first one is returned, not the second. *)
Example parse_result_first_pair :
  Inference.parse_result
    (str "<FINAL_ANSWER>a</FINAL_ANSWER><FINAL_ANSWER>X</FINAL_ANSWER>") = str "a".
Proof. reflexivity. Qed.

(** ** [process_one_func] *)

Section SplitFacts.

Implicit Types s piece pre rest : pystr.

Lemma split_nonempty sep s : PyStr.split sep s <> [].
Proof.
  destruct s as [|c s]; simpl; [done|].
  destruct (c =? sep)%N; [done|]. destruct (PyStr.split sep s); done.
Qed.

Lemma join_cons sep piece l :
  l <> [] -> PyStr.join sep (piece :: l) = piece ++ sep ++ PyStr.join sep l.
Proof. destruct l; [done|reflexivity]. Qed.

Lemma join_snoc sep l piece :
  l <> [] -> PyStr.join sep (l ++ [piece]) = PyStr.join sep l ++ sep ++ piece.
Proof.
  induction l as [|p l IH]; [done|]. intros _.
  destruct l as [|q l]; [reflexivity|].
  change ((p :: q :: l) ++ [piece]) with (p :: ((q :: l) ++ [piece])).
  rewrite join_cons by (simpl; done). rewrite IH by done.
  rewrite (join_cons sep p (q :: l)) by done.
  rewrite <- !List.app_assoc. reflexivity.
Qed.

(** Joining the pieces of a split gives the string back. *)
Lemma join_split sep s : PyStr.join [sep] (PyStr.split sep s) = s.
Proof.
  induction s as [|c s IH]; [reflexivity|]. simpl PyStr.split.
  destruct (N.eqb_spec c sep) as [->|Hne].
  - rewrite join_cons by apply split_nonempty. rewrite IH. reflexivity.
  - destruct (PyStr.split sep s) as [|piece rest] eqn:E.
    + destruct (split_nonempty sep s E).
    + destruct rest as [|q rest]; simpl in IH |- *; rewrite <- IH; reflexivity.
Qed.

(** No piece of a split contains the separator. *)
Lemma split_pieces sep s :
  Forall (fun piece => sep ∉ piece) (PyStr.split sep s).
Proof.
  induction s as [|c s IH]; simpl.
  - repeat constructor. apply not_elem_of_nil.
  - destruct (N.eqb_spec c sep) as [->|Hne].
    + constructor; [apply not_elem_of_nil | exact IH].
    + destruct (PyStr.split sep s) as [|piece rest].
      * repeat constructor. rewrite not_elem_of_cons.
        split; [congruence|apply not_elem_of_nil].
      * inversion IH; subst. constructor; [|assumption].
        rewrite not_elem_of_cons. split; [congruence|assumption].
Qed.

(** The last piece of a split is the text after the last separator: the
    whole string when it has no separator. *)
Lemma split_last sep s :
  exists suffix,
    PyStr.last_item (PyStr.split sep s) = ret suffix
    /\ (sep ∉ suffix)
    /\ (s = suffix \/ exists pre, s = pre ++ [sep] ++ suffix).
Proof.
  pose proof (join_split sep s) as Hjoin.
  pose proof (split_pieces sep s) as Hall.
  destruct (last (PyStr.split sep s)) as [suffix|] eqn:E.
  - exists suffix. unfold PyStr.last_item. rewrite E. split; [reflexivity|].
    apply last_Some in E as [init E]. rewrite E in Hjoin, Hall.
    rewrite Forall_app, Forall_singleton in Hall. destruct Hall as [_ Hall].
    split; [exact Hall|].
    destruct init as [|p init].
    + left. symmetry. exact Hjoin.
    + right. exists (PyStr.join [sep] (p :: init)).
      rewrite <- Hjoin. apply join_snoc. done.
  - apply last_None in E. destruct (split_nonempty sep s E).
Qed.

Lemma split_whole sep s : sep ∉ s -> PyStr.split sep s = [s].
Proof.
  induction s as [|c s IH]; intros H; [reflexivity|].
  apply not_elem_of_cons in H as [Hc Hs].
  simpl. destruct (N.eqb_spec c sep) as [->|_]; [done|].
  rewrite IH by assumption. reflexivity.
Qed.

(** Splitting at a separator: the pieces before it, then the pieces
    after it. *)
Lemma split_app sep pre rest :
  PyStr.split sep (pre ++ sep :: rest)
  = PyStr.split sep pre ++ PyStr.split sep rest.
Proof.
  induction pre as [|c pre IH].
  - simpl. rewrite N.eqb_refl. reflexivity.
  - simpl. destruct (c =? sep)%N.
    + rewrite IH. reflexivity.
    + rewrite IH. destruct (PyStr.split sep pre) as [|p l] eqn:E.
      * destruct (split_nonempty sep pre E).
      * reflexivity.
Qed.

(** The last piece is the text after the last separator. *)
Lemma split_last_after sep pre suffix :
  sep ∉ suffix ->
  PyStr.last_item (PyStr.split sep (pre ++ sep :: suffix)) = ret suffix.
Proof.
  intros H. rewrite split_app, (split_whole sep suffix H).
  unfold PyStr.last_item. rewrite last_snoc. reflexivity.
Qed.

Lemma split_last_whole sep s :
  sep ∉ s -> PyStr.last_item (PyStr.split sep s) = ret s.
Proof. intros H. rewrite (split_whole sep s H). reflexivity. Qed.

(** The last piece of an identifier that ends in [suffix] after its last
    separator, or is [suffix]. *)
Lemma split_last_of sep s suffix :
  sep ∉ suffix ->
  s = suffix \/ (exists pre, s = pre ++ [sep] ++ suffix) ->
  PyStr.last_item (PyStr.split sep s) = ret suffix.
Proof.
  intros Hfree [->|[pre ->]].
  - apply split_last_whole, Hfree.
  - apply split_last_after, Hfree.
Qed.

End SplitFacts.

Section PathFacts.

Implicit Types a b d name : pystr.

Lemma endswith_app c a b :
  b <> [] -> PyStr.endswith c (a ++ b) = PyStr.endswith c b.
Proof.
  intros Hb. induction a as [|x a IH]; [reflexivity|].
  simpl. destruct (a ++ b) as [|y r] eqn:E.
  - destruct a; [simpl in E; contradiction | discriminate].
  - exact IH.
Qed.

Lemma rstrip_id c a : PyStr.endswith c a = false -> PyStr.rstrip c a = a.
Proof.
  induction a as [|x a IH]; [reflexivity|]. intros H. simpl.
  destruct a as [|y a].
  - simpl in H |- *. rewrite H. reflexivity.
  - rewrite IH by exact H. reflexivity.
Qed.

Lemma rstrip_snoc c a : PyStr.rstrip c (a ++ [c]) = PyStr.rstrip c a.
Proof.
  induction a as [|x a IH]; simpl.
  - rewrite N.eqb_refl. reflexivity.
  - rewrite IH. reflexivity.
Qed.

Lemma not_all_sep c a l :
  a <> [] -> PyStr.endswith c a = false ->
  forallb (fun x => (x =? c)%N) (a ++ l) = false.
Proof.
  induction a as [|x a IH]; [done|]. intros _ H. simpl.
  destruct a as [|y a].
  - simpl in H. rewrite H. reflexivity.
  - rewrite (IH ltac:(done) H). apply andb_false_r.
Qed.

Lemma cut_whole name : OsPath.sep ∉ name -> OsPath.cut name = ([], name).
Proof.
  induction name as [|c name IH]; [reflexivity|]. intros H.
  apply not_elem_of_cons in H as [Hc H]. simpl. rewrite (IH H).
  destruct (N.eqb_spec c OsPath.sep); [congruence|reflexivity].
Qed.

Lemma cut_after d name :
  OsPath.sep ∉ name ->
  OsPath.cut (d ++ OsPath.sep :: name) = (d ++ [OsPath.sep], name).
Proof.
  intros H. induction d as [|c d IH]; simpl.
  - rewrite (cut_whole name H). reflexivity.
  - rewrite IH. destruct (d ++ [OsPath.sep]) eqn:E; [|reflexivity].
    destruct d; discriminate.
Qed.

(** A file directly in a directory whose name does not end with a
    separator: the directory part, the file part. *)
Lemma dirname_file d name :
  d <> [] -> PyStr.endswith OsPath.sep d = false -> OsPath.sep ∉ name ->
  OsPath.dirname (d ++ OsPath.sep :: name) = d
  /\ OsPath.basename (d ++ OsPath.sep :: name) = name.
Proof.
  intros Hd Hend Hname. unfold OsPath.dirname, OsPath.basename.
  rewrite (cut_after d name Hname). simpl fst. simpl snd.
  rewrite (not_all_sep _ d _ Hd Hend), rstrip_snoc, (rstrip_id _ d Hend).
  split; reflexivity.
Qed.

(** The directory of the side files: [programs] after the module
    directory; never empty, never ending with a separator. *)
Lemma join_programs_shape module_dir :
  exists d, OsPath.join module_dir (str "programs") = d ++ str "programs".
Proof.
  unfold OsPath.join.
  replace (PyStr.startswith (str "programs") [OsPath.sep]) with false by reflexivity.
  destruct ((length module_dir =? 0)%nat || PyStr.endswith OsPath.sep module_dir).
  - exists module_dir. reflexivity.
  - exists (module_dir ++ [OsPath.sep]). rewrite <- List.app_assoc. reflexivity.
Qed.

Lemma join_programs_usual module_dir :
  module_dir <> [] -> PyStr.endswith 47 module_dir = false ->
  OsPath.join module_dir (str "programs") = module_dir ++ str "/programs".
Proof.
  intros Hne Hend. unfold OsPath.join.
  replace (PyStr.startswith (str "programs") [OsPath.sep]) with false by reflexivity.
  unfold OsPath.sep. rewrite Hend.
  destruct module_dir; [done|]. reflexivity.
Qed.

Lemma join_programs_nonempty module_dir :
  OsPath.join module_dir (str "programs") <> []
  /\ PyStr.endswith OsPath.sep (OsPath.join module_dir (str "programs")) = false.
Proof.
  destruct (join_programs_shape module_dir) as [d ->]. split.
  - destruct d; discriminate.
  - rewrite endswith_app by discriminate. reflexivity.
Qed.

(** A file name is attached to the directory of the side files after one
    separator. *)
Lemma join_programs module_dir name :
  PyStr.startswith name [OsPath.sep] = false ->
  OsPath.join (OsPath.join module_dir (str "programs")) name
  = OsPath.join module_dir (str "programs") ++ [OsPath.sep] ++ name.
Proof.
  intros Hname.
  destruct (join_programs_nonempty module_dir) as [Hne Hend].
  unfold OsPath.join at 1. rewrite Hname, Hend.
  destruct (OsPath.join module_dir (str "programs")); [done|]. reflexivity.
Qed.

End PathFacts.

Section ProcessOne.

Import Inference.

Variable registry : gmap pystr (bool -> Agent).
Variable module_dir : pystr.

Implicit Types (data : BenchmarkRecord) (meta_data : MetaData) (w : World).
Implicit Types prompt test entry_point full_id suffix answer text path : pystr.

Lemma getitem_Some {V} (d : gmap pystr V) key v :
  d !! key = Some v -> getitem d key = ret v.
Proof. intros H. unfold getitem. rewrite H. reflexivity. Qed.

Lemma getitem_None {V} (d : gmap pystr V) key :
  d !! key = None -> getitem d key = raise (KeyError key).
Proof. intros H. unfold getitem. rewrite H. reflexivity. Qed.

Lemma getitem_ret_inv {V} (d : gmap pystr V) key v :
  getitem d key = ret v -> d !! key = Some v.
Proof.
  unfold getitem. destruct (d !! key); [|discriminate]. intros [= ->]. reflexivity.
Qed.

Lemma outcome_inv {A} (r r' : result A) w w' :
  (r, w) = (r', w') -> r = r' /\ w = w'.
Proof. intros [= -> ->]. split; reflexivity. Qed.

Lemma ret_inv {A} (a b : A) : ret a = ret b -> a = b.
Proof. intros [= ->]. reflexivity. Qed.

Lemma run_lift_ret {A B} (a : A) (k : A -> io B) w :
  io_bind (lift (ret a)) k w = k a w.
Proof. reflexivity. Qed.

Lemma run_lift_raise {A B} (e : exn) (k : A -> io B) w :
  io_bind (lift (raise e)) k w = (raise e, w).
Proof. reflexivity. Qed.

(** Writing to a file just opened for writing leaves exactly the text
    written; a text that the encoding cannot take leaves the file empty,
    and a file that cannot be opened stops the run. *)
Lemma open_then_write {B} path encoding text (k : unit -> io B) w :
  io_bind (Io.open_w path encoding) (fun f => io_bind (Io.write f text) k) w
  = if Io.openable w path
    then
      if forallb (encodes (default (preferred w) encoding)) text
      then k tt (mkWorld (<[path := text]> (files w)) (dirs w) (refused w)
                   (preferred w) (stdout w))
      else (raise UnicodeEncodeError,
            mkWorld (<[path := []]> (files w)) (dirs w) (refused w)
              (preferred w) (stdout w))
    else (raise (Io.open_error w path), w).
Proof.
  unfold io_bind, Io.open_w, Io.write.
  destruct (Io.openable w path); [|reflexivity].
  destruct w as [fs ds rs enc out].
  cbv [ret Io.handle_encoding Io.handle_path files dirs refused preferred stdout].
  destruct (forallb (encodes (default enc encoding)) text); [|reflexivity].
  rewrite alter_insert_eq. reflexivity.
Qed.

(** The path of the side file of a task whose identifier ends in
    [suffix], as the code builds it. *)
Local Abbreviation side_file suffix :=
  (OsPath.join (OsPath.join module_dir (str "programs"))
     (str "program" ++ suffix ++ str ".py")).

(** The text of the side file. *)
Local Abbreviation side_text prompt answer test entry_point :=
  (prompt ++ answer ++ NL ++ test ++ NL ++ str "check(" ++ entry_point ++ str ")").

(** A run that finds every key, given the last piece of the identifier:
    it ends with the side file written, with the side file empty when
    the preferred encoding cannot take its text, or with the failure to
    open it. *)
Lemma process_one_func_eval data meta_data w make_agent prompt test entry_point
    full_id suffix :
  registry !! agent_type meta_data = Some make_agent ->
  data !! str "prompt" = Some prompt ->
  data !! str "test" = Some test ->
  data !! str "entry_point" = Some entry_point ->
  data !! str "task_id" = Some full_id ->
  PyStr.last_item (PyStr.split 47 full_id) = ret suffix ->
  process_one_func registry module_dir data meta_data w
  = if Io.openable w (side_file suffix)
    then
      if forallb (encodes (preferred w))
           (side_text prompt
              (parse_result (run_humaneval (make_agent (on_aios meta_data)) prompt))
              test entry_point)
      then
        (ret [(str "task_id", full_id);
              (str "completion",
               parse_result (run_humaneval (make_agent (on_aios meta_data)) prompt))],
         mkWorld
           (<[side_file suffix
              := side_text prompt
                   (parse_result (run_humaneval (make_agent (on_aios meta_data)) prompt))
                   test entry_point]> (files w))
           (dirs w) (refused w) (preferred w) (stdout w))
      else
        (raise UnicodeEncodeError,
         mkWorld (<[side_file suffix := []]> (files w))
           (dirs w) (refused w) (preferred w) (stdout w))
    else (raise (Io.open_error w (side_file suffix)), w).
Proof.
  intros Hreg Hprompt Htest Hentry Hid Hlast. unfold process_one_func.
  rewrite (getitem_Some _ _ _ Hreg), run_lift_ret.
  rewrite (getitem_Some _ _ _ Hprompt), !run_lift_ret.
  rewrite (getitem_Some _ _ _ Htest), run_lift_ret.
  rewrite (getitem_Some _ _ _ Hentry), run_lift_ret.
  rewrite (getitem_Some _ _ _ Hid), run_lift_ret.
  rewrite Hlast, run_lift_ret.
  rewrite open_then_write. cbn [default].
  rewrite <- !List.app_assoc.
  destruct (Io.openable w (side_file suffix)); [|reflexivity].
  destruct (forallb (encodes (preferred w)) _); [|reflexivity].
  rewrite run_lift_ret. reflexivity.
Qed.

(** A run that returns has found every key, opened the side file and
    written its text. *)
Lemma process_one_func_inv data meta_data w prediction w' :
  process_one_func registry module_dir data meta_data w = (ret prediction, w') ->
  exists make_agent prompt test entry_point full_id suffix,
    registry !! agent_type meta_data = Some make_agent
    /\ data !! str "prompt" = Some prompt
    /\ data !! str "test" = Some test
    /\ data !! str "entry_point" = Some entry_point
    /\ data !! str "task_id" = Some full_id
    /\ PyStr.last_item (PyStr.split 47 full_id) = ret suffix
    /\ Io.openable w (side_file suffix) = true
    /\ forallb (encodes (preferred w))
         (side_text prompt
            (parse_result (run_humaneval (make_agent (on_aios meta_data)) prompt))
            test entry_point) = true.
Proof.
  intros H.
  destruct (getitem registry (agent_type meta_data)) as [?|make_agent] eqn:E1.
  { unfold process_one_func in H. rewrite E1 in H. discriminate. }
  destruct (getitem data (str "prompt")) as [?|prompt] eqn:E2.
  { unfold process_one_func in H. rewrite E1, run_lift_ret, E2 in H. discriminate. }
  destruct (getitem data (str "test")) as [?|test] eqn:E3.
  { unfold process_one_func in H.
    rewrite E1, run_lift_ret, E2, !run_lift_ret, E3 in H. discriminate. }
  destruct (getitem data (str "entry_point")) as [?|entry_point] eqn:E4.
  { unfold process_one_func in H.
    rewrite E1, run_lift_ret, E2, !run_lift_ret, E3, run_lift_ret, E4 in H.
    discriminate. }
  destruct (getitem data (str "task_id")) as [?|full_id] eqn:E5.
  { unfold process_one_func in H.
    rewrite E1, run_lift_ret, E2, !run_lift_ret, E3, run_lift_ret, E4,
      run_lift_ret, E5 in H.
    discriminate. }
  apply getitem_ret_inv in E1, E2, E3, E4, E5.
  destruct (split_last 47 full_id) as (suffix & Hlast & _ & _).
  rewrite (process_one_func_eval data meta_data w make_agent prompt test
             entry_point full_id suffix) in H by assumption.
  exists make_agent, prompt, test, entry_point, full_id, suffix.
  repeat split; try assumption.
  - destruct (Io.openable w (side_file suffix)); [reflexivity|discriminate].
  - destruct (Io.openable w (side_file suffix)); [|discriminate].
    destruct (forallb (encodes (preferred w)) _); [reflexivity|discriminate].
Qed.

(** The name of a side file has no separator. *)
Lemma side_file_name suffix :
  47%N ∉ suffix -> OsPath.sep ∉ str "program" ++ suffix ++ str ".py".
Proof.
  intros H. rewrite !not_elem_of_app. repeat split.
  - compute_done.
  - exact H.
  - compute_done.
Qed.

(** Where the side file lies. *)
Lemma side_file_path suffix :
  side_file suffix
  = OsPath.join module_dir (str "programs") ++ str "/program" ++ suffix ++ str ".py".
Proof. rewrite join_programs by reflexivity. reflexivity. Qed.

(** The side file can be opened when its path can be passed to the
    system, the directory is there and nothing stands in the way. *)
Lemma side_file_openable w suffix :
  47%N ∉ suffix ->
  forallb Io.fs_char (side_file suffix) = true ->
  Io.no_nul (side_file suffix) = true ->
  OsPath.join module_dir (str "programs") ∈ dirs w ->
  side_file suffix ∉ dirs w ->
  refused w !! side_file suffix = None ->
  Io.openable w (side_file suffix) = true.
Proof.
  intros Hfree Hchars Hnul Hdir Hnodir Hfreeway.
  destruct (join_programs_nonempty module_dir) as [Hne Hend].
  pose proof (dirname_file _ _ Hne Hend (side_file_name suffix Hfree)) as [Hd Hb].
  unfold Io.openable.
  rewrite Hchars, Hnul.
  rewrite (bool_decide_eq_true_2 _ Hnodir), (bool_decide_eq_true_2 _ Hfreeway).
  rewrite join_programs by reflexivity.
  change ([OsPath.sep] ++ ?x) with (OsPath.sep :: x).
  rewrite Hd, Hb, (bool_decide_eq_true_2 _ Hdir), orb_true_r.
  rewrite !length_app. simpl length.
  rewrite (proj2 (Nat.eqb_neq _ 0)) by lia.
  rewrite (proj2 (Nat.eqb_neq _ 0)) by lia.
  reflexivity.
Qed.

End ProcessOne.

(** C5.  For a record that has the four fields and an agent type that is
    registered, [process_one_func] opens one file for writing:
    ["program" ++ suffix ++ ".py"] directly in the [programs] directory
    beside the module, where [suffix] is the text of the task identifier
    after its last ['/'] (the whole identifier when it has none).  When
    the file can be opened and its text encoded, the file holds exactly
    the prompt, the extracted answer, a line feed, the test code, a line
    feed and ["check(" ++ entry_point ++ ")"], nothing else changes, and
    the returned record holds the full task identifier and the extracted
    answer.  When the text cannot be encoded the call raises
    [UnicodeEncodeError] and leaves the file empty; when the file cannot
    be opened (no [programs] directory, say) the call raises the error
    of [open] and changes nothing.  The directory is
    [module_dir ++ "/programs"] for a module directory that is not empty
    and does not end with ['/'].  The extracted answer is the text
    between the markers of the agent's reply when the reply is
    [pre ++ "<FINAL_ANSWER>" ++ X ++ "</FINAL_ANSWER>" ++ post] with these
    as the first occurrences of the markers, and is empty when the reply
    lacks a marker. *)
Theorem process_one_func_spec
    (registry : gmap pystr (bool -> Inference.Agent)) (module_dir : pystr)
    (data : Inference.BenchmarkRecord) (meta_data : Inference.MetaData) (w : World)
    (make_agent : bool -> Inference.Agent)
    (prompt test entry_point full_id suffix : pystr) :
  registry !! Inference.agent_type meta_data = Some make_agent ->
  data !! str "prompt" = Some prompt ->
  data !! str "test" = Some test ->
  data !! str "entry_point" = Some entry_point ->
  data !! str "task_id" = Some full_id ->
  47%N ∉ suffix ->
  (full_id = suffix \/ exists pre, full_id = pre ++ str "/" ++ suffix) ->
  Inference.process_one_func registry module_dir data meta_data w
  = (if Io.openable w
          (OsPath.join module_dir (str "programs")
             ++ str "/program" ++ suffix ++ str ".py")
     then
       if forallb (encodes (preferred w))
            (prompt
               ++ Inference.parse_result
                    (Inference.run_humaneval
                       (make_agent (Inference.on_aios meta_data)) prompt)
               ++ Inference.NL ++ test ++ Inference.NL
               ++ str "check(" ++ entry_point ++ str ")")
       then
         (ret
            [(str "task_id", full_id);
             (str "completion",
              Inference.parse_result
                (Inference.run_humaneval
                   (make_agent (Inference.on_aios meta_data)) prompt))],
          mkWorld
            (<[OsPath.join module_dir (str "programs")
                 ++ str "/program" ++ suffix ++ str ".py"
               := prompt
                  ++ Inference.parse_result
                       (Inference.run_humaneval
                          (make_agent (Inference.on_aios meta_data)) prompt)
                  ++ Inference.NL ++ test ++ Inference.NL
                  ++ str "check(" ++ entry_point ++ str ")"]> (files w))
            (dirs w) (refused w) (preferred w) (stdout w))
       else
         (raise UnicodeEncodeError,
          mkWorld
            (<[OsPath.join module_dir (str "programs")
                 ++ str "/program" ++ suffix ++ str ".py" := []]> (files w))
            (dirs w) (refused w) (preferred w) (stdout w))
     else
       (raise
          (Io.open_error w
             (OsPath.join module_dir (str "programs")
                ++ str "/program" ++ suffix ++ str ".py")),
        w))
  /\ (module_dir <> [] -> PyStr.endswith 47 module_dir = false ->
      OsPath.join module_dir (str "programs") = module_dir ++ str "/programs")
  /\ (forall pre X post,
        Inference.run_humaneval (make_agent (Inference.on_aios meta_data)) prompt
        = pre ++ Inference.BEGIN_MARK ++ X ++ Inference.END_MARK ++ post ->
        ~ PyStr.occurs Inference.BEGIN_MARK pre ->
        ~ PyStr.occurs Inference.END_MARK pre ->
        ~ PyStr.occurs Inference.END_MARK X ->
        Inference.parse_result
          (Inference.run_humaneval (make_agent (Inference.on_aios meta_data)) prompt)
        = X)
  /\ (~ PyStr.occurs Inference.BEGIN_MARK
          (Inference.run_humaneval (make_agent (Inference.on_aios meta_data)) prompt)
      \/ ~ PyStr.occurs Inference.END_MARK
            (Inference.run_humaneval (make_agent (Inference.on_aios meta_data)) prompt) ->
      Inference.parse_result
        (Inference.run_humaneval (make_agent (Inference.on_aios meta_data)) prompt)
      = []).
Proof.
  intros Hreg Hprompt Htest Hentry Hid Hfree Hshape.
  split; [|split; [apply join_programs_usual|split]].
  2:{ intros pre X post -> Hb He HX. apply parse_result_enclosed; assumption. }
  2:{ apply parse_result_missing. }
  pose proof (split_last_of 47 full_id suffix Hfree Hshape) as Hlast.
  rewrite (process_one_func_eval registry module_dir data meta_data w make_agent
             prompt test entry_point full_id suffix) by assumption.
  rewrite (side_file_path module_dir suffix).
  reflexivity.
Qed.

(** The first record of the scenario: task ["A/1"] goes to
    [programs/program1.py], with the completion ["    return x"]. *)
Lemma process_one_func_spec_witness :
  Inference.process_one_func Scenario.registry Scenario.module_dir
    (Scenario.record (str "A/1")) Scenario.meta Scenario.empty_world
  = (ret [(str "task_id", str "A/1"); (str "completion", str "    return x")],
     mkWorld
       (<[str "/repo/benchmarks/humaneval/programs/program1.py"
          := str "def f(x):" ++ Inference.NL ++ str "    return x" ++ Inference.NL
             ++ str "assert f(1)==1" ++ Inference.NL ++ str "check(f)"]> ∅)
       {[ str "/repo/benchmarks/humaneval/programs" ]} ∅ UTF8 [])
  /\ (Scenario.module_dir <> [] -> PyStr.endswith 47 Scenario.module_dir = false ->
      OsPath.join Scenario.module_dir (str "programs")
      = str "/repo/benchmarks/humaneval/programs")
  /\ (forall pre X post,
        str "<FINAL_ANSWER>    return x</FINAL_ANSWER>"
        = pre ++ Inference.BEGIN_MARK ++ X ++ Inference.END_MARK ++ post ->
        ~ PyStr.occurs Inference.BEGIN_MARK pre ->
        ~ PyStr.occurs Inference.END_MARK pre ->
        ~ PyStr.occurs Inference.END_MARK X ->
        str "    return x" = X)
  /\ (~ PyStr.occurs Inference.BEGIN_MARK
          (str "<FINAL_ANSWER>    return x</FINAL_ANSWER>")
      \/ ~ PyStr.occurs Inference.END_MARK
            (str "<FINAL_ANSWER>    return x</FINAL_ANSWER>") ->
      str "    return x" = []).
Proof.
  apply (process_one_func_spec Scenario.registry Scenario.module_dir
           (Scenario.record (str "A/1")) Scenario.meta Scenario.empty_world
           (fun _ => Scenario.stub_agent)
           (str "def f(x):" ++ Inference.NL) (str "assert f(1)==1") (str "f")
           (str "A/1") (str "1")).
  - reflexivity.
  - reflexivity.
  - reflexivity.
  - reflexivity.
  - reflexivity.
  - compute_done.
  - right. exists (str "A"). reflexivity.
Defined.

(** Without the [programs] directory nothing is written: the call raises
    [FileNotFoundError] for the side file and leaves the world as it
    was. *)
Example process_one_func_no_directory :
  Inference.process_one_func Scenario.registry Scenario.module_dir
    (Scenario.record (str "A/1")) Scenario.meta Scenario.bare_world
  = (raise (FileNotFoundError (str "/repo/benchmarks/humaneval/programs/program1.py")),
     Scenario.bare_world).
Proof. vm_compute. reflexivity. Qed.

(** A prompt that the preferred encoding cannot take: the call raises
    after the file has been created, and leaves it empty. *)
Example process_one_func_not_encodable :
  Inference.process_one_func Scenario.registry Scenario.module_dir
    (<[str "prompt" := [233%N]]> (Scenario.record (str "A/1")))
    Scenario.meta Scenario.ascii_world
  = (raise UnicodeEncodeError,
     mkWorld (<[str "/repo/benchmarks/humaneval/programs/program1.py" := []]> ∅)
       (dirs Scenario.ascii_world) (refused Scenario.ascii_world)
       (preferred Scenario.ascii_world) []).
Proof. vm_compute. reflexivity. Qed.

(** ** The JSON encoding of a record *)

Section JsonFacts.

Import Json.

Implicit Types s t rest T : pystr.

Lemma all_printable_app s t :
  all_printable (s ++ t) = all_printable s && all_printable t.
Proof. apply forallb_app. Qed.

Lemma hex_digit_printable d : (d < 16)%N -> printable (hex_digit d) = true.
Proof.
  intros H. unfold printable, hex_digit.
  destruct (N.ltb_spec d 10); N_cases; simpl; try reflexivity; lia.
Qed.

Lemma u_escape_printable n : all_printable (u_escape n) = true.
Proof.
  unfold u_escape, hex4, all_printable. cbn [forallb].
  rewrite !hex_digit_printable by nlia. reflexivity.
Qed.

Lemma escape_char_printable c : all_printable (escape_char c) = true.
Proof.
  unfold escape_char, DQUOTE, BACKSLASH.
  repeat match goal with
    | |- context [N.eqb c ?b] => destruct (N.eqb_spec c b); [reflexivity|]
    end.
  destruct (printable c) eqn:E.
  { unfold all_printable. simpl. rewrite E. reflexivity. }
  destruct (c <? 65536)%N.
  - apply u_escape_printable.
  - rewrite all_printable_app, !u_escape_printable. reflexivity.
Qed.

Lemma escape_printable s : all_printable (escape s) = true.
Proof.
  induction s as [|c s IH]; [reflexivity|]. simpl escape.
  rewrite all_printable_app, escape_char_printable, IH. reflexivity.
Qed.

Lemma dumps_str_printable s : all_printable (dumps_str s) = true.
Proof.
  unfold dumps_str. change (DQUOTE :: ?x) with ([DQUOTE] ++ x).
  rewrite !all_printable_app, escape_printable. reflexivity.
Qed.

Lemma dumps_item_printable kv : all_printable (dumps_item kv) = true.
Proof.
  unfold dumps_item. rewrite !all_printable_app, !dumps_str_printable. reflexivity.
Qed.

Lemma join_items_printable (d : list (pystr * pystr)) :
  all_printable (PyStr.join (str ", ") (map dumps_item d)) = true.
Proof.
  induction d as [|kv d IH]; [reflexivity|].
  destruct d as [|kv' d]; [apply dumps_item_printable|].
  change (map dumps_item (kv :: kv' :: d))
    with (dumps_item kv :: map dumps_item (kv' :: d)).
  rewrite join_cons by done.
  rewrite !all_printable_app, dumps_item_printable, IH. reflexivity.
Qed.

(** The encoding has printable ASCII only: no control character, no line
    feed, nothing above ['~']. *)
Lemma dumps_printable d : all_printable (dumps d) = true.
Proof.
  unfold dumps. rewrite !all_printable_app, join_items_printable. reflexivity.
Qed.

Lemma printable_no_newline s : all_printable s = true -> 10%N ∉ s.
Proof.
  unfold all_printable. intros H Hin.
  rewrite forallb_forall in H. apply list_elem_of_In in Hin.
  specialize (H _ Hin). discriminate.
Qed.

(** *** Decoding what was encoded *)

Lemma hex_value_digit d : (d < 16)%N -> hex_value (hex_digit d) = Some d.
Proof.
  intros H. unfold hex_value, hex_digit.
  destruct (N.ltb_spec d 10); N_cases; simpl; try (f_equal; lia); lia.
Qed.

Lemma hex4_value_hex4 n :
  (n < 65536)%N ->
  hex4_value (hex_digit ((n / 4096) mod 16)) (hex_digit ((n / 256) mod 16))
    (hex_digit ((n / 16) mod 16)) (hex_digit (n mod 16)) = Some n.
Proof.
  intros H. unfold hex4_value.
  rewrite !hex_value_digit by nlia. f_equal. nlia.
Qed.

Lemma loads_quote rest : loads_str_body (DQUOTE :: rest) = Some ([], rest).
Proof. reflexivity. Qed.

Lemma loads_plain c T :
  (c =? DQUOTE)%N = false -> (c =? BACKSLASH)%N = false -> (c <? 32)%N = false ->
  loads_str_body (c :: T) = prepend c (loads_str_body T).
Proof. intros H1 H2 H3. simpl. rewrite H1, H2, H3. reflexivity. Qed.

(** The decoding of an escape [\uXXXX], by what its digits say and what
    follows. *)
Lemma loads_u_eq h1 h2 h3 h4 s3 :
  loads_str_body (BACKSLASH :: 117%N :: h1 :: h2 :: h3 :: h4 :: s3)
  = match hex4_value h1 h2 h3 h4 with
    | Some uni =>
        if is_high uni then
          match s3 with
          | b :: u :: s4 =>
              if (b =? BACKSLASH)%N && (u =? 117)%N then
                match s4 with
                | g1 :: g2 :: g3 :: g4 :: s5 =>
                    match hex4_value g1 g2 g3 g4 with
                    | Some uni2 =>
                        if is_low uni2
                        then prepend (pair_value uni uni2) (loads_str_body s5)
                        else prepend uni (loads_str_body s3)
                    | None => None
                    end
                | _ => None
                end
              else prepend uni (loads_str_body s3)
          | _ => prepend uni (loads_str_body s3)
          end
        else prepend uni (loads_str_body s3)
    | None => None
    end.
Proof. reflexivity. Qed.

Lemma loads_u_lone n T :
  (n < 65536)%N -> is_high n = false ->
  loads_str_body (u_escape n ++ T) = prepend n (loads_str_body T).
Proof.
  intros Hn Hhigh. unfold u_escape, hex4. cbn [app].
  rewrite loads_u_eq, hex4_value_hex4, Hhigh by exact Hn. reflexivity.
Qed.

Lemma loads_u_high_lone n T :
  (n < 65536)%N -> is_high n = true -> lone_ahead T ->
  loads_str_body (u_escape n ++ T) = prepend n (loads_str_body T).
Proof.
  intros Hn Hhigh Hahead. unfold u_escape, hex4. cbn [app].
  rewrite loads_u_eq, hex4_value_hex4, Hhigh by exact Hn.
  destruct Hahead as [|b|b u T' Hbu|g1 g2 g3 g4 T' uni2 Hhex Hlow].
  - reflexivity.
  - reflexivity.
  - rewrite Hbu. reflexivity.
  - rewrite !N.eqb_refl. cbn [andb]. rewrite Hhex, Hlow. reflexivity.
Qed.

Lemma loads_u_pair hi lo T :
  (hi < 65536)%N -> (lo < 65536)%N -> is_high hi = true -> is_low lo = true ->
  loads_str_body (u_escape hi ++ u_escape lo ++ T)
  = prepend (pair_value hi lo) (loads_str_body T).
Proof.
  intros Hhi Hlo Hhigh Hlow. unfold u_escape, hex4. cbn [app].
  rewrite loads_u_eq, hex4_value_hex4, Hhigh by exact Hhi.
  rewrite !N.eqb_refl. cbn [andb].
  rewrite hex4_value_hex4, Hlow by exact Hlo. reflexivity.
Qed.

End JsonFacts.

Section JsonRoundTrip.

Import Json.

Implicit Types s t rest T : pystr.

Lemma fuse_cons_plain h t : is_high h = false -> fuse (h :: t) = h :: fuse t.
Proof. intros H. destruct t; simpl; rewrite ?H; reflexivity. Qed.

Lemma fuse_high_low h l r :
  is_high h = true -> is_low l = true ->
  fuse (h :: l :: r) = pair_value h l :: fuse r.
Proof. intros H1 H2. simpl. rewrite H1, H2. reflexivity. Qed.

Lemma fuse_high_other h l r :
  is_low l = false -> fuse (h :: l :: r) = h :: fuse (l :: r).
Proof. intros H. cbn [fuse]. rewrite H, andb_false_r. reflexivity. Qed.

(** Text without a high surrogate decodes to itself. *)
Lemma fuse_plain s : plain_str s = true -> fuse s = s.
Proof.
  induction s as [|c s IH]; [reflexivity|]. intros H.
  apply andb_true_iff in H as [Hc Hs]. apply negb_true_iff in Hc.
  rewrite fuse_cons_plain by exact Hc. rewrite IH by exact Hs. reflexivity.
Qed.

(** The ranges behind the cases of [escape_char]. *)
Lemma is_high_range c : is_high c = true <-> (55296 <= c <= 56319)%N.
Proof. unfold is_high. rewrite andb_true_iff, !N.leb_le. tauto. Qed.

Lemma is_low_range c : is_low c = true <-> (56320 <= c <= 57343)%N.
Proof. unfold is_low. rewrite andb_true_iff, !N.leb_le. tauto. Qed.

Lemma printable_range c : printable c = true <-> (32 <= c <= 126)%N.
Proof. unfold printable. rewrite andb_true_iff, !N.leb_le. tauto. Qed.

Lemma not_high c : ~ (55296 <= c <= 56319)%N -> is_high c = false.
Proof.
  intros H. destruct (is_high c) eqn:E; [|reflexivity].
  apply is_high_range in E. contradiction.
Qed.

Lemma not_low c : ~ (56320 <= c <= 57343)%N -> is_low c = false.
Proof.
  intros H. destruct (is_low c) eqn:E; [|reflexivity].
  apply is_low_range in E. contradiction.
Qed.

Lemma loads_short e d T :
  (e, d) ∈ short_escapes ->
  loads_str_body (BACKSLASH :: e :: T) = prepend d (loads_str_body T).
Proof.
  unfold short_escapes. rewrite !elem_of_cons, elem_of_nil.
  intros H. repeat destruct H as [H|H]; try done; injection H as -> ->; reflexivity.
Qed.

(** The escape of an ASCII character: a short escape, the character
    itself, or [\uXXXX] for a control character without a short one. *)
Lemma escape_char_small c :
  (c < 127)%N ->
  (exists e, escape_char c = [BACKSLASH; e] /\ (e, c) ∈ short_escapes)
  \/ (escape_char c = [c] /\ c <> DQUOTE /\ c <> BACKSLASH /\ (32 <= c)%N)
  \/ escape_char c = u_escape c.
Proof.
  intros H. unfold escape_char, DQUOTE, BACKSLASH.
  destruct (N.eqb_spec c 92) as [->|?]; [left; eexists; split; [reflexivity|compute_done]|].
  destruct (N.eqb_spec c 34) as [->|?]; [left; eexists; split; [reflexivity|compute_done]|].
  destruct (N.eqb_spec c 8) as [->|?]; [left; eexists; split; [reflexivity|compute_done]|].
  destruct (N.eqb_spec c 12) as [->|?]; [left; eexists; split; [reflexivity|compute_done]|].
  destruct (N.eqb_spec c 10) as [->|?]; [left; eexists; split; [reflexivity|compute_done]|].
  destruct (N.eqb_spec c 13) as [->|?]; [left; eexists; split; [reflexivity|compute_done]|].
  destruct (N.eqb_spec c 9) as [->|?]; [left; eexists; split; [reflexivity|compute_done]|].
  destruct (printable c) eqn:E.
  - right. left. apply printable_range in E. repeat split; try assumption. lia.
  - right. right.
    replace (c <? 65536)%N with true by (symmetry; apply N.ltb_lt; lia).
    reflexivity.
Qed.

(** A surrogate is escaped as [\uXXXX]. *)
Lemma escape_char_bmp c :
  (127 <= c < 65536)%N -> escape_char c = u_escape c.
Proof.
  intros H. unfold escape_char, DQUOTE, BACKSLASH, printable.
  N_cases; simpl; try reflexivity; lia.
Qed.

(** The escape of a character above U+FFFF: its surrogate pair. *)
Lemma escape_char_astral c :
  (65536 <= c)%N ->
  escape_char c
  = u_escape (55296 + ((c - 65536) / 1024) mod 1024)
    ++ u_escape (56320 + (c - 65536) mod 1024).
Proof.
  intros H. unfold escape_char, DQUOTE, BACKSLASH, printable.
  N_cases; simpl; try reflexivity; lia.
Qed.

(** The escape of anything but a low surrogate is not taken for the low
    half of a pair. *)
Lemma escape_char_lone_ahead c T :
  valid c = true -> is_low c = false -> T <> [] ->
  lone_ahead (escape_char c ++ T).
Proof.
  intros Hvalid Hlow HT. apply N.ltb_lt in Hvalid.
  destruct (N.ltb_spec c 127) as [Hsmall|Hbig].
  - destruct T as [|t0 T]; [done|].
    unfold escape_char, DQUOTE, BACKSLASH.
    repeat match goal with
      | |- context [N.eqb c ?b] =>
          destruct (N.eqb_spec c b); [apply lone_other; reflexivity|]
      end.
    destruct (printable c) eqn:E.
    + apply lone_other. unfold BACKSLASH.
      destruct (N.eqb_spec c 92); [contradiction|reflexivity].
    + destruct (c <? 65536)%N eqn:E2.
      * unfold u_escape, hex4. cbn [app].
        eapply lone_u; [apply hex4_value_hex4; lia|exact Hlow].
      * apply N.ltb_ge in E2. lia.
  - destruct (N.ltb_spec c 65536) as [Hbmp|Hastral].
    + rewrite escape_char_bmp by lia. unfold u_escape, hex4. cbn [app].
      eapply lone_u; [apply hex4_value_hex4; lia|exact Hlow].
    + rewrite escape_char_astral by lia. unfold u_escape at 1, hex4 at 1. cbn [app].
      eapply lone_u; [apply hex4_value_hex4; nlia|].
      apply not_low. nlia.
Qed.

Lemma quote_lone_ahead rest : lone_ahead (DQUOTE :: rest).
Proof.
  destruct rest as [|u T]; [apply lone_one|apply lone_other; reflexivity].
Qed.

Lemma escape_tail_nonempty t rest : escape t ++ DQUOTE :: rest <> [].
Proof. destruct (escape t); discriminate. Qed.

(** Decoding the escaped text up to its closing quote gives the text,
    with the surrogate pairs it held fused. *)
Lemma loads_escape s rest :
  valid_str s = true ->
  loads_str_body (escape s ++ DQUOTE :: rest) = Some (fuse s, rest).
Proof.
  remember (length s) as n eqn:Hn. revert s Hn.
  induction n as [n IH] using lt_wf_ind. intros s Hn Hvalid.
  destruct s as [|c t]; [reflexivity|].
  apply andb_true_iff in Hvalid as [Hc Ht].
  assert (IHt : loads_str_body (escape t ++ DQUOTE :: rest) = Some (fuse t, rest)).
  { apply (IH (length t)); [subst n; simpl; lia|reflexivity|exact Ht]. }
  simpl escape. rewrite <- List.app_assoc.
  pose proof Hc as Hlt. apply N.ltb_lt in Hlt.
  destruct (N.ltb_spec c 127) as [Hsmall|Hbig].
  - (* short escapes and printable characters *)
    rewrite fuse_cons_plain by (apply not_high; lia).
    destruct (escape_char_small c Hsmall)
      as [(e & -> & He)|[(-> & H34 & H92 & H32)| ->]].
    + cbn [app]. rewrite (loads_short e c _ He), IHt. reflexivity.
    + cbn [app]. rewrite loads_plain.
      * rewrite IHt. reflexivity.
      * apply N.eqb_neq. assumption.
      * apply N.eqb_neq. assumption.
      * apply N.ltb_ge. lia.
    + rewrite loads_u_lone by (try apply not_high; lia).
      rewrite IHt. reflexivity.
  - destruct (N.ltb_spec c 65536) as [Hbmp|Hastral].
    + rewrite escape_char_bmp by lia.
      destruct (is_high c) eqn:Hhigh.
      * (* a high surrogate: what follows decides *)
        destruct t as [|l r].
        { rewrite loads_u_high_lone by (try apply quote_lone_ahead; try lia; done).
          rewrite IHt. reflexivity. }
        apply andb_true_iff in Ht as [Hl Hr].
        destruct (is_low l) eqn:Hlow.
        -- apply is_low_range in Hlow as Hrange.
           rewrite (fuse_high_low c l r Hhigh Hlow).
           simpl escape. rewrite escape_char_bmp by lia.
           rewrite <- List.app_assoc.
           rewrite loads_u_pair by (try lia; assumption).
           rewrite (IH (length r)); [reflexivity|subst n; simpl; lia|reflexivity|exact Hr].
        -- rewrite (fuse_high_other c l r Hlow).
           rewrite loads_u_high_lone; [rewrite IHt; reflexivity|lia|exact Hhigh|].
           simpl escape. rewrite <- List.app_assoc.
           apply escape_char_lone_ahead; [exact Hl|exact Hlow|].
           apply escape_tail_nonempty.
      * rewrite fuse_cons_plain by exact Hhigh.
        rewrite loads_u_lone by (try lia; exact Hhigh).
        rewrite IHt. reflexivity.
    + (* above U+FFFF: the two escapes of the pair give the character back *)
      rewrite fuse_cons_plain by (apply not_high; lia).
      rewrite escape_char_astral by lia. rewrite <- List.app_assoc.
      rewrite loads_u_pair.
      * rewrite IHt. unfold pair_value, prepend. repeat f_equal. nlia.
      * nlia.
      * nlia.
      * apply is_high_range. nlia.
      * apply is_low_range. nlia.
Qed.

End JsonRoundTrip.

Section JsonObjects.

Import Json.

Implicit Types s rest : pystr.
Implicit Types d : list (pystr * pystr).

Lemma dumps_str_app s rest :
  dumps_str s ++ rest = DQUOTE :: escape s ++ DQUOTE :: rest.
Proof.
  unfold dumps_str. rewrite <- app_comm_cons, <- List.app_assoc. reflexivity.
Qed.

Lemma loads_dumps_str s rest :
  valid_str s = true -> loads_str (dumps_str s ++ rest) = Some (fuse s, rest).
Proof. intros H. rewrite dumps_str_app. apply loads_escape, H. Qed.

Lemma loads_space_dumps_str s rest :
  valid_str s = true ->
  loads_str (32%N :: dumps_str s ++ rest) = Some (fuse s, rest).
Proof. intros H. rewrite dumps_str_app. apply loads_escape, H. Qed.

Lemma dumps_cons kv d : dumps (kv :: d) = str "{" ++ dumps_item kv ++ members_tail d.
Proof.
  unfold dumps. f_equal. revert kv. induction d as [|kv' d IH]; intros kv.
  - reflexivity.
  - change (map dumps_item (kv :: kv' :: d))
      with (dumps_item kv :: map dumps_item (kv' :: d)).
    rewrite join_cons by done. rewrite <- !List.app_assoc. rewrite IH.
    reflexivity.
Qed.

Lemma loads_members_tail d rest fuel :
  valid_record d = true ->
  (length d < fuel)%nat ->
  loads_members fuel (members_tail d ++ rest) = Some (map fuse_item d, rest).
Proof.
  revert fuel. induction d as [|[k v] d IH]; intros [|fuel] Hvalid Hlt;
    simpl in Hlt; try lia.
  - reflexivity.
  - cbn [valid_record forallb fst snd] in Hvalid.
    apply andb_true_iff in Hvalid as [Hkv Hd].
    apply andb_true_iff in Hkv as [Hk Hv].
    cbn [members_tail]. unfold dumps_item. cbn [fst snd].
    rewrite <- !List.app_assoc.
    change (str ", " ++ ?x) with (44%N :: 32%N :: x).
    change (str ": " ++ ?x) with (58%N :: 32%N :: x).
    cbn [loads_members skip_ws is_space N.eqb Pos.eqb orb].
    rewrite (loads_space_dumps_str k _ Hk).
    unfold expect. cbn [skip_ws is_space N.eqb Pos.eqb orb].
    rewrite (loads_space_dumps_str v _ Hv).
    rewrite (IH fuel Hd) by lia. reflexivity.
Qed.

Lemma members_tail_length d : (length d < S (length (members_tail d)))%nat.
Proof.
  induction d as [|kv d IH]; simpl; [lia|].
  rewrite !length_app. lia.
Qed.

Lemma expect_here c rest : is_space c = false -> expect c (c :: rest) = Some rest.
Proof.
  intros H. unfold expect. simpl. rewrite H, N.eqb_refl. reflexivity.
Qed.

Lemma fuse_item_plain d : plain_record d = true -> map fuse_item d = d.
Proof.
  induction d as [|[k v] d IH]; [reflexivity|]. intros H.
  cbn [plain_record forallb fst snd] in H.
  apply andb_true_iff in H as [Hkv Hd]. apply andb_true_iff in Hkv as [Hk Hv].
  cbn [map]. unfold fuse_item at 1. cbn [fst snd].
  rewrite (fuse_plain k Hk), (fuse_plain v Hv), (IH Hd). reflexivity.
Qed.

(** Decoding an encoded record gives its members in order, each text
    with its surrogate pairs fused. *)
Lemma loads_dumps d : valid_record d = true -> loads (dumps d) = Some (map fuse_item d).
Proof.
  destruct d as [|[k v] d]; [reflexivity|]. intros Hvalid.
  cbn [valid_record forallb fst snd] in Hvalid.
  apply andb_true_iff in Hvalid as [Hkv Hd].
  apply andb_true_iff in Hkv as [Hk Hv].
  rewrite dumps_cons. unfold dumps_item. cbn [fst snd].
  rewrite <- !List.app_assoc.
  change (str "{" ++ ?x) with (123%N :: x).
  unfold loads. rewrite expect_here by reflexivity.
  rewrite dumps_str_app. unfold expect at 1. cbn [skip_ws is_space DQUOTE N.eqb Pos.eqb orb].
  rewrite <- dumps_str_app.
  rewrite (loads_dumps_str k _ Hk).
  change (str ": " ++ ?x) with (58%N :: 32%N :: x).
  rewrite expect_here by reflexivity.
  rewrite (loads_space_dumps_str v _ Hv).
  rewrite <- (List.app_nil_r (members_tail d)) at 2.
  rewrite <- (List.app_nil_r (members_tail d)) at 1.
  rewrite (loads_members_tail d [] _ Hd) by (rewrite List.app_nil_r; apply members_tail_length).
  reflexivity.
Qed.

End JsonObjects.

(** ** [write_output_func] *)

Section WriteOutput.

Import Inference.

Implicit Types (results : list ResultRecord) (path : pystr) (w : World).

(** The text of one output line, with its line feed. *)
Local Abbreviation encoded_line := (fun r : ResultRecord => Json.dumps r ++ NL).

(** What the call prints. *)
Local Abbreviation report results :=
  (str "Write results num: " ++ str (pretty (length results))).

Lemma join_empty_cons (x : pystr) l :
  PyStr.join [] (x :: l) = x ++ PyStr.join [] l.
Proof. destruct l; [symmetry; apply List.app_nil_r | reflexivity]. Qed.

(** UTF-8 encodes printable ASCII and the line feed. *)
Lemma printable_utf8 c : Json.printable_or_lf c = true -> encodes UTF8 c = true.
Proof.
  unfold Json.printable_or_lf, Json.printable, encodes, utf8_char. intros H.
  apply orb_true_iff in H as [H|H].
  - apply andb_true_iff in H as [_ H]. apply N.leb_le in H.
    apply orb_true_iff. left. apply N.ltb_lt. lia.
  - apply N.eqb_eq in H as ->. reflexivity.
Qed.

Lemma printable_weaken s :
  Json.all_printable s = true -> forallb Json.printable_or_lf s = true.
Proof.
  unfold Json.all_printable. rewrite !forallb_forall. intros H c Hc.
  unfold Json.printable_or_lf. rewrite (H c Hc). reflexivity.
Qed.

Lemma encoded_line_chars (r : ResultRecord) :
  forallb Json.printable_or_lf (encoded_line r) = true.
Proof.
  cbv beta. rewrite forallb_app, printable_weaken by apply dumps_printable.
  reflexivity.
Qed.

Lemma encoded_line_utf8 (r : ResultRecord) : forallb (encodes UTF8) (encoded_line r) = true.
Proof.
  pose proof (encoded_line_chars r) as H. rewrite forallb_forall in H.
  apply forallb_forall. intros c Hc. apply printable_utf8, H, Hc.
Qed.

Lemma encoded_lines_chars results :
  forallb Json.printable_or_lf (PyStr.join [] (map encoded_line results)) = true.
Proof.
  induction results as [|r results IH]; [reflexivity|].
  change (map ?f (r :: results)) with (f r :: map f results).
  rewrite join_empty_cons. cbv beta.
  rewrite forallb_app, IH, encoded_line_chars. reflexivity.
Qed.

(** The loop of [write_output_func] appends the encoded lines, in list
    order, to what the file holds: UTF-8 encodes each of them. *)
Lemma write_loop results path old fs ds rs enc out :
  for_each results
    (fun result => Io.write (Io.mkHandle path UTF8) (Json.dumps result ++ NL))
    (mkWorld (<[path := old]> fs) ds rs enc out)
  = (ret tt,
     mkWorld (<[path := old ++ PyStr.join [] (map encoded_line results)]> fs)
       ds rs enc out).
Proof.
  revert old. induction results as [|r results IH]; intros old.
  - simpl. rewrite List.app_nil_r. reflexivity.
  - change (map encoded_line (r :: results))
      with (encoded_line r :: map encoded_line results).
    rewrite join_empty_cons. cbn [for_each]. unfold io_bind at 1, Io.write at 1.
    cbn [Io.handle_encoding Io.handle_path files dirs refused preferred stdout].
    rewrite (encoded_line_utf8 r).
    rewrite alter_insert_eq. cbv [ret]. rewrite IH.
    rewrite <- (List.app_assoc old). reflexivity.
Qed.

(** The whole call: the file written and the count reported, or the
    failure to open the file and nothing else. *)
Lemma write_output_func_eval results path w :
  write_output_func results path w
  = if Io.openable w path
    then
      (ret tt,
       mkWorld (<[path := PyStr.join [] (map encoded_line results)]> (files w))
         (dirs w) (refused w) (preferred w) (stdout w ++ [report results]))
    else (raise (Io.open_error w path), w).
Proof.
  unfold write_output_func, io_bind at 1, Io.open_w.
  destruct (Io.openable w path); [|reflexivity].
  cbv [ret default]. unfold io_bind. rewrite write_loop. reflexivity.
Qed.

(** Whether a file can be opened does not depend on what files hold or
    on what was printed. *)
Lemma openable_files w path fs out :
  Io.openable (mkWorld fs (dirs w) (refused w) (preferred w) out) path
  = Io.openable w path.
Proof. reflexivity. Qed.

Lemma open_error_files w path fs out :
  Io.open_error (mkWorld fs (dirs w) (refused w) (preferred w) out) path
  = Io.open_error w path.
Proof. reflexivity. Qed.

(** A run without line feed, closed by one, is one line. *)
Lemma lines_go_line cur (x rest : pystr) :
  10%N ∉ x ->
  PyStr.lines_go cur (x ++ NL ++ rest) = cur x :: PyStr.lines rest.
Proof.
  revert cur. induction x as [|c x IH]; intros cur Hx.
  - reflexivity.
  - apply not_elem_of_cons in Hx as [Hc Hx].
    rewrite <- app_comm_cons. cbn [PyStr.lines_go].
    destruct (N.eqb_spec c 10) as [->|_]; [done|].
    rewrite IH by assumption. reflexivity.
Qed.

Lemma lines_encoded results :
  PyStr.lines (PyStr.join [] (map encoded_line results)) = map Json.dumps results.
Proof.
  induction results as [|r results IH]; [reflexivity|].
  change (map encoded_line (r :: results))
    with (encoded_line r :: map encoded_line results).
  rewrite join_empty_cons. cbv beta. rewrite <- List.app_assoc.
  unfold PyStr.lines at 1.
  rewrite lines_go_line by apply printable_no_newline, dumps_printable.
  rewrite IH. reflexivity.
Qed.

End WriteOutput.

(** C6.  When the output file can be opened for writing,
    [write_output_func] leaves in it, whatever it held before, exactly
    the encoded records in list order, each followed by a line feed, and
    reports the count; no other file changes.  Read back line by line,
    the file has one line per record (none for the empty list) and line
    [i] is the encoding of record [i].  Every line on its own decodes:
    to the members of its record in order, with each surrogate pair of a
    text fused into its code point, hence to the record itself when no
    text holds a high surrogate.  When the file cannot be opened (an
    empty path, a directory, a directory that is missing, a refusal of
    the system) the call raises the error of [open], writes nothing and
    prints nothing. *)
Theorem write_output_func_spec
    (results : list Inference.ResultRecord) (path : pystr) (w : World) :
  (Io.openable w path = true ->
   exists content,
     Inference.write_output_func results path w
     = (ret tt,
        mkWorld (<[path := content]> (files w)) (dirs w) (refused w) (preferred w)
          (stdout w ++ [str "Write results num: " ++ str (pretty (length results))]))
     /\ content
        = PyStr.join [] (map (fun r => Json.dumps r ++ Inference.NL) results)
     /\ PyStr.lines content = map Json.dumps results
     /\ length (PyStr.lines content) = length results
     /\ Forall2
          (fun line r =>
             Json.valid_record r = true ->
             Json.loads line = Some (map Json.fuse_item r)
             /\ (Json.plain_record r = true -> Json.loads line = Some r))
          (PyStr.lines content) results)
  /\ (Io.openable w path = false ->
      Inference.write_output_func results path w = (raise (Io.open_error w path), w)).
Proof.
  rewrite write_output_func_eval. split; intros Hopen; rewrite Hopen; [|reflexivity].
  eexists. split; [reflexivity|]. split; [reflexivity|].
  rewrite lines_encoded. split; [reflexivity|].
  split; [apply length_map|].
  induction results as [|r results IH]; constructor.
  - intros Hvalid. split; [apply loads_dumps, Hvalid|].
    intros Hplain. rewrite (loads_dumps r Hvalid), (fuse_item_plain r Hplain).
    reflexivity.
  - exact IH.
Qed.

(** The two records of the scenario, written to [out.jsonl]. *)
Lemma write_output_func_spec_witness :
  exists content,
    Inference.write_output_func Scenario.results (str "out.jsonl") Scenario.empty_world
    = (ret tt,
       mkWorld (<[str "out.jsonl" := content]> ∅)
         {[ str "/repo/benchmarks/humaneval/programs" ]} ∅ UTF8
         [str "Write results num: 2"])
    /\ content
       = (str "{" ++ [34%N] ++ str "task_id" ++ [34%N] ++ str ": "
          ++ [34%N] ++ str "A/1" ++ [34%N] ++ str ", "
          ++ [34%N] ++ str "completion" ++ [34%N] ++ str ": "
          ++ [34%N] ++ str "    return x" ++ [34%N] ++ str "}" ++ [10%N])
         ++ (str "{" ++ [34%N] ++ str "task_id" ++ [34%N] ++ str ": "
             ++ [34%N] ++ str "A/2" ++ [34%N] ++ str ", "
             ++ [34%N] ++ str "completion" ++ [34%N] ++ str ": "
             ++ [34%N] ++ str "    return x" ++ [34%N] ++ str "}" ++ [10%N])
    /\ PyStr.lines content
       = [str "{" ++ [34%N] ++ str "task_id" ++ [34%N] ++ str ": "
          ++ [34%N] ++ str "A/1" ++ [34%N] ++ str ", "
          ++ [34%N] ++ str "completion" ++ [34%N] ++ str ": "
          ++ [34%N] ++ str "    return x" ++ [34%N] ++ str "}";
          str "{" ++ [34%N] ++ str "task_id" ++ [34%N] ++ str ": "
          ++ [34%N] ++ str "A/2" ++ [34%N] ++ str ", "
          ++ [34%N] ++ str "completion" ++ [34%N] ++ str ": "
          ++ [34%N] ++ str "    return x" ++ [34%N] ++ str "}"]
    /\ length (PyStr.lines content) = 2%nat
    /\ Forall2
         (fun line r =>
            Json.valid_record r = true ->
            Json.loads line = Some (map Json.fuse_item r)
            /\ (Json.plain_record r = true -> Json.loads line = Some r))
         (PyStr.lines content) Scenario.results.
Proof.
  apply (proj1 (write_output_func_spec Scenario.results (str "out.jsonl")
                  Scenario.empty_world)).
  vm_compute. reflexivity.
Defined.

(** C7.  Running [write_output_func] a second time with the same list and
    path leaves every file as the first run left it, and ends as the
    first run ended: the second run overwrites, it does not append. *)
Theorem write_output_func_idempotent
    (results : list Inference.ResultRecord) (path : pystr) (w : World) :
  files (Inference.write_output_func results path
           (Inference.write_output_func results path w).2).2
  = files (Inference.write_output_func results path w).2
  /\ (Inference.write_output_func results path
        (Inference.write_output_func results path w).2).1
     = (Inference.write_output_func results path w).1.
Proof.
  rewrite (write_output_func_eval results path w).
  destruct (Io.openable w path) eqn:Hopen.
  - rewrite write_output_func_eval. cbn [snd].
    rewrite (openable_files w path), Hopen. cbn [fst snd files].
    split; [apply insert_insert_eq|reflexivity].
  - cbn [snd]. rewrite write_output_func_eval, Hopen. split; reflexivity.
Qed.

Example write_output_func_scenario :
  Inference.write_output_func Scenario.results (str "out.jsonl") Scenario.empty_world
  = (ret tt,
     mkWorld
       {[ str "out.jsonl"
          := str "{" ++ [34%N] ++ str "task_id" ++ [34%N] ++ str ": "
             ++ [34%N] ++ str "A/1" ++ [34%N] ++ str ", "
             ++ [34%N] ++ str "completion" ++ [34%N] ++ str ": "
             ++ [34%N] ++ str "    return x" ++ [34%N] ++ str "}" ++ [10%N]
             ++ str "{" ++ [34%N] ++ str "task_id" ++ [34%N] ++ str ": "
             ++ [34%N] ++ str "A/2" ++ [34%N] ++ str ", "
             ++ [34%N] ++ str "completion" ++ [34%N] ++ str ": "
             ++ [34%N] ++ str "    return x" ++ [34%N] ++ str "}" ++ [10%N] ]}
       (dirs Scenario.empty_world) ∅ UTF8 [str "Write results num: 2"]).
Proof. vm_compute. reflexivity. Qed.

Example write_output_func_empty :
  Inference.write_output_func [] (str "out.jsonl") Scenario.empty_world
  = (ret tt,
     mkWorld {[ str "out.jsonl" := [] ]} (dirs Scenario.empty_world) ∅ UTF8
       [str "Write results num: 0"]).
Proof. vm_compute. reflexivity. Qed.

(** The empty path cannot be opened: nothing is written or printed. *)
Example write_output_func_empty_path :
  Inference.write_output_func Scenario.results [] Scenario.empty_world
  = (raise (FileNotFoundError []), Scenario.empty_world).
Proof. vm_compute. reflexivity. Qed.

(** Nor can a path in a directory that does not exist. *)
Example write_output_func_missing_directory :
  Inference.write_output_func Scenario.results (str "runs/out.jsonl")
    Scenario.empty_world
  = (raise (FileNotFoundError (str "runs/out.jsonl")), Scenario.empty_world).
Proof. vm_compute. reflexivity. Qed.

(** A completion outside ASCII: U+00E9, U+20AC and U+1F600 are written
    as escapes, U+1F600 as the two escapes of its surrogate pair, and
    the line decodes to the record. *)
Example write_output_func_unicode :
  Json.dumps [(str "completion", [233; 8364; 128512]%N)]
  = str "{" ++ [34%N] ++ str "completion" ++ [34%N] ++ str ": " ++ [34%N]
    ++ [92%N] ++ str "u00e9" ++ [92%N] ++ str "u20ac"
    ++ [92%N] ++ str "ud83d" ++ [92%N] ++ str "ude00" ++ [34%N] ++ str "}"
  /\ Json.loads (Json.dumps [(str "completion", [233; 8364; 128512]%N)])
     = Some [(str "completion", [233; 8364; 128512]%N)].
Proof. split; vm_compute; reflexivity. Qed.

(** A completion that holds the two halves of a pair as two characters
    comes back as the one character of the pair. *)
Example write_output_func_surrogates :
  Json.loads (Json.dumps [(str "completion", [55357; 56832]%N)])
  = Some [(str "completion", [128512%N])].
Proof. vm_compute. reflexivity. Qed.

(** The report on standard output is printed at every run. *)
Example write_output_func_prints_twice :
  stdout (Inference.write_output_func Scenario.results (str "out.jsonl")
            (Inference.write_output_func Scenario.results (str "out.jsonl")
               Scenario.empty_world).2).2
  = [str "Write results num: 2"; str "Write results num: 2"].
Proof. vm_compute. reflexivity. Qed.
(** ** [LLMQuery] and [LLMResponse] *)

Section Schemas.

Import Apis.

Lemma not_literal_nil name choices given :
  not_literal name choices given = [] <-> forall v, given = Some v -> v ∈ choices.
Proof.
  unfold not_literal. destruct given as [v|].
  - destruct (bool_decide_reflect (v ∈ choices)) as [Hin|Hout]; split; intros H.
    + intros ? [= <-]. exact Hin.
    + reflexivity.
    + discriminate.
    + destruct Hout. apply H. reflexivity.
  - split; [intros _ ? [=] | reflexivity].
Qed.

(** Construction succeeds exactly when [messages] is given and a given
    [action_type] is one of the three kinds; the fields are then the given
    values, or the declared defaults. *)
Lemma LLMQuery_new_ok kw q :
  LLMQuery_new kw = ret q <->
  exists msgs,
    kw_messages kw = Some msgs
    /\ (forall a, kw_action_type kw = Some a -> a ∈ ACTION_TYPES)
    /\ q = {| query_class := default "llm" (kw_query_class kw);
              llms := default None (kw_llms kw);
              messages := msgs;
              tools := default (Some []) (kw_tools kw);
              action_type := default "chat" (kw_action_type kw);
              message_return_type := default "text" (kw_message_return_type kw) |}.
Proof.
  unfold LLMQuery_new.
  destruct (kw_messages kw) as [msgs|] eqn:Hm; simpl missing; simpl app.
  - destruct (not_literal "action_type" ACTION_TYPES (kw_action_type kw)) eqn:Ha.
    + pose proof (proj1 (not_literal_nil _ _ _) Ha) as Hin. split.
      * intros [= <-]. eauto.
      * intros (? & [= <-] & _ & ->). reflexivity.
    + split; [discriminate|]. intros (? & _ & Hin & _).
      pose proof (proj2 (not_literal_nil "action_type" _ _) Hin). congruence.
  - split; [discriminate|]. intros (? & [=] & _).
Qed.

End Schemas.

(** C2 (as amended).  Constructing an [LLMQuery] without [messages] fails
    with a [ValidationError] that names the field.  With [messages] given
    -- the empty list included -- and a valid [action_type], construction
    succeeds and the query holds the given list unchanged; so the
    [messages] of a constructed query is whatever list was passed. *)
Theorem LLMQuery_messages_spec (kw : Apis.LLMQuery_kwargs) :
  (Apis.kw_messages kw = None ->
   exists fields,
     Apis.LLMQuery_new kw = raise (ValidationError fields) /\ "messages" ∈ fields)
  /\ (forall msgs,
       Apis.kw_messages kw = Some msgs ->
       (forall a, Apis.kw_action_type kw = Some a -> a ∈ Apis.ACTION_TYPES) ->
       exists q, Apis.LLMQuery_new kw = ret q /\ Apis.messages q = msgs)
  /\ (forall q,
       Apis.LLMQuery_new kw = ret q -> Apis.kw_messages kw = Some (Apis.messages q)).
Proof.
  split; [|split].
  - intros Hm. unfold Apis.LLMQuery_new. rewrite Hm. simpl.
    eexists. split; [reflexivity|]. apply list_elem_of_here.
  - intros msgs Hm Ha. eexists. split.
    + apply LLMQuery_new_ok. exists msgs. eauto.
    + reflexivity.
  - intros q Hq. apply LLMQuery_new_ok in Hq as (msgs & Hm & _ & ->). exact Hm.
Qed.

(** [LLMQuery()] fails on [messages]; [LLMQuery(messages=[])] succeeds
    with an empty list. *)
Lemma LLMQuery_messages_spec_witness :
  (exists fields,
      Apis.LLMQuery_new Apis.no_query_kwargs = raise (ValidationError fields)
      /\ "messages" ∈ fields)
  /\ (exists q,
      Apis.LLMQuery_new (Apis.mkLLMQuery_kwargs None None (Some []) None None None) = ret q
      /\ Apis.messages q = []).
Proof.
  split.
  - apply (proj1 (LLMQuery_messages_spec Apis.no_query_kwargs)). reflexivity.
  - apply (proj1 (proj2 (LLMQuery_messages_spec
                           (Apis.mkLLMQuery_kwargs None None (Some []) None None None)))).
    + reflexivity.
    + intros a [=].
Defined.

(** C2 (as stated) fails: [LLMQuery(messages=[])] is constructed, and its
    [messages] is the empty list. *)
Lemma LLMQuery_accepts_empty_messages :
  exists q,
    Apis.LLMQuery_new (Apis.mkLLMQuery_kwargs None None (Some []) None None None) = ret q
    /\ Apis.messages q = [].
Proof. eexists. split; reflexivity. Qed.

(** C4.  The [action_type] of a constructed query is ["chat"],
    ["tool_use"] or ["operate_file"], and construction with any other
    string fails with a [ValidationError] that names the field. *)
Theorem LLMQuery_action_type_spec (kw : Apis.LLMQuery_kwargs) :
  (forall q,
      Apis.LLMQuery_new kw = ret q ->
      Apis.action_type q = "chat" \/ Apis.action_type q = "tool_use"
      \/ Apis.action_type q = "operate_file")
  /\ (forall a,
       Apis.kw_action_type kw = Some a ->
       a <> "chat" -> a <> "tool_use" -> a <> "operate_file" ->
       exists fields,
         Apis.LLMQuery_new kw = raise (ValidationError fields)
         /\ "action_type" ∈ fields).
Proof.
  split.
  - intros q Hq. apply LLMQuery_new_ok in Hq as (msgs & _ & Ha & ->). simpl.
    destruct (Apis.kw_action_type kw) as [a|]; simpl; [|auto].
    specialize (Ha a eq_refl). unfold Apis.ACTION_TYPES in Ha.
    rewrite !elem_of_cons, elem_of_nil in Ha. tauto.
  - intros a Ha H1 H2 H3. unfold Apis.LLMQuery_new. rewrite Ha.
    assert (Hout : a ∉ Apis.ACTION_TYPES).
    { unfold Apis.ACTION_TYPES. rewrite !elem_of_cons, elem_of_nil. tauto. }
    unfold Apis.not_literal. rewrite bool_decide_eq_false_2 by exact Hout.
    destruct (Apis.kw_messages kw); simpl; eexists; (split; [reflexivity|]).
    + apply list_elem_of_here.
    + apply list_elem_of_further, list_elem_of_here.
Qed.

(** A tool-use query is constructed with that action type; a query asking
    for ["summarize"] is refused. *)
Lemma LLMQuery_action_type_spec_witness :
  (Apis.action_type
     (Apis.mkLLMQuery "llm" None [] (Some []) "tool_use" "text") = "chat"
   \/ Apis.action_type
        (Apis.mkLLMQuery "llm" None [] (Some []) "tool_use" "text") = "tool_use"
   \/ Apis.action_type
        (Apis.mkLLMQuery "llm" None [] (Some []) "tool_use" "text") = "operate_file")
  /\ (exists fields,
        Apis.LLMQuery_new
          (Apis.mkLLMQuery_kwargs None None (Some []) None (Some "summarize") None)
        = raise (ValidationError fields)
        /\ "action_type" ∈ fields).
Proof.
  split.
  - apply (proj1 (LLMQuery_action_type_spec
                    (Apis.mkLLMQuery_kwargs None None (Some []) None (Some "tool_use") None))).
    reflexivity.
  - apply (proj2 (LLMQuery_action_type_spec
                    (Apis.mkLLMQuery_kwargs None None (Some []) None (Some "summarize") None))
             "summarize"); [reflexivity | discriminate..].
Defined.

(** C3 (as amended).  [LLMResponse] puts no condition on [finished] and
    [error] together: a response constructed without these two arguments
    has [finished = false] and no [error]. *)
Theorem LLMResponse_finished_error_spec
    (kw : Apis.LLMResponse_kwargs) (r : Apis.LLMResponse) :
  Apis.LLMResponse_new kw = ret r ->
  Apis.kw_finished kw = None ->
  Apis.kw_error kw = None ->
  Apis.finished r = false /\ Apis.error r = None.
Proof.
  unfold Apis.LLMResponse_new. cbn [Apis.base_errors].
  intros [= <-] Hfinished Herror. cbn [Apis.finished Apis.error].
  rewrite Hfinished, Herror. split; reflexivity.
Qed.

(** [LLMResponse()]. *)
Lemma LLMResponse_finished_error_spec_witness :
  Apis.finished (Apis.mkLLMResponse "llm" None None false None 200) = false
  /\ Apis.error (Apis.mkLLMResponse "llm" None None false None 200) = None.
Proof.
  apply (LLMResponse_finished_error_spec Apis.no_response_kwargs); reflexivity.
Defined.

(** C3 (as stated) fails: [LLMResponse()] is constructed with
    [finished = false] and no [error]. *)
Lemma LLMResponse_unfinished_without_error :
  exists r,
    Apis.LLMResponse_new Apis.no_response_kwargs = ret r
    /\ Apis.finished r = false
    /\ Apis.error r = None.
Proof. eexists. split; [reflexivity|]. split; reflexivity. Qed.

(** C9.  [LLMResponse()] is constructed, with [finished = false],
    [status_code = 200] and no message, tool calls or error. *)
Theorem LLMResponse_defaults :
  Apis.LLMResponse_new Apis.no_response_kwargs
  = ret {| Apis.response_class := "llm";
           Apis.response_message := None;
           Apis.tool_calls := None;
           Apis.finished := false;
           Apis.error := None;
           Apis.status_code := 200 |}.
Proof.
  unfold Apis.LLMResponse_new, Apis.no_response_kwargs. cbn. reflexivity.
Qed.

(** ** [LLMLayer] *)

(** C10.  [LLMLayer([])] raises [ValueError]; for a non-empty list the
    layer is constructed and holds that list; so a constructed layer holds
    the list it was given, and that list has at least one element. *)
Theorem LLMLayer_new_spec :
  Layer.LLMLayer_new [] = raise (ValueError "LLMLayer must contain at least one LLM")
  /\ (forall llms, llms <> [] -> Layer.LLMLayer_new llms = ret (Layer.mkLLMLayer llms))
  /\ (forall llms layer,
       Layer.LLMLayer_new llms = ret layer ->
       Layer.llms layer = llms /\ (0 < length (Layer.llms layer))%nat).
Proof.
  split; [reflexivity|]. split.
  - intros [|item llms] Hne; [done|reflexivity].
  - intros [|item llms] layer H.
    + discriminate.
    + injection H as <-. simpl. split; [reflexivity|lia].
Qed.

(** A layer with one model is constructed and holds it. *)
Lemma LLMLayer_new_spec_witness :
  Layer.LLMLayer_new [Layer.LLMItem_new "gpt-4"]
  = ret (Layer.mkLLMLayer [Layer.LLMItem_new "gpt-4"])
  /\ Layer.llms (Layer.mkLLMLayer [Layer.LLMItem_new "gpt-4"]) = [Layer.LLMItem_new "gpt-4"]
  /\ (0 < length (Layer.llms (Layer.mkLLMLayer [Layer.LLMItem_new "gpt-4"])))%nat.
Proof.
  split.
  - apply (proj1 (proj2 LLMLayer_new_spec)). discriminate.
  - apply (proj2 (proj2 LLMLayer_new_spec) [Layer.LLMItem_new "gpt-4"]). reflexivity.
Defined.

(** ** The transport adapter *)

(** C8.  When the call fails below HTTP, or the status is outside 2xx, or
    the reply does not decode, [send_request] returns a response with
    [finished = false], a non-empty [error], and as [status_code] the
    status seen on the wire, or the sentinel when there is none. *)
Theorem send_request_failure
    (post : string -> string -> Communication.outcome)
    (serialize : Apis.LLMQuery -> string) (sentinel : Z)
    (agent_name : string) (query : Apis.LLMQuery) (base_url : string) :
  let o := post (base_url +:+ "/" +:+ agent_name) (serialize query) in
  Communication.failed o = true ->
  exists cause,
    Communication.send_request post serialize sentinel agent_name query base_url
    = {| Apis.response_class := "llm";
         Apis.response_message := None;
         Apis.tool_calls := None;
         Apis.finished := false;
         Apis.error := Some cause;
         Apis.status_code := default sentinel (Communication.observed_status o) |}
    /\ cause <> EmptyString.
Proof.
  intros o Hfail. unfold Communication.send_request. fold o.
  destruct o as [cause| |status body]; simpl in Hfail |- *.
  - eexists. split; [reflexivity|]. discriminate.
  - eexists. split; [reflexivity|]. discriminate.
  - destruct ((200 <=? status) && (status <? 300)); simpl in Hfail.
    + destruct body; [discriminate|].
      eexists. split; [reflexivity|]. discriminate.
    + eexists. split; [reflexivity|]. discriminate.
Qed.

(** A server that answers 503 and a connection that is refused. *)
Lemma send_request_failure_witness :
  (exists cause,
      Communication.send_request
        (fun _ _ => Communication.Replied 503 None) (fun _ => "{}") 599
        "agent" (Apis.mkLLMQuery "llm" None [] (Some []) "chat" "text") "http://localhost:8000"
      = Apis.mkLLMResponse "llm" None None false (Some cause) 503
      /\ cause <> EmptyString)
  /\ (exists cause,
      Communication.send_request
        (fun _ _ => Communication.ConnectionFailed "refused") (fun _ => "{}") 599
        "agent" (Apis.mkLLMQuery "llm" None [] (Some []) "chat" "text") "http://localhost:8000"
      = Apis.mkLLMResponse "llm" None None false (Some cause) 599
      /\ cause <> EmptyString).
Proof.
  split.
  - apply (send_request_failure
             (fun _ _ => Communication.Replied 503 None) (fun _ => "{}") 599
             "agent" (Apis.mkLLMQuery "llm" None [] (Some []) "chat" "text")
             "http://localhost:8000").
    reflexivity.
  - apply (send_request_failure
             (fun _ _ => Communication.ConnectionFailed "refused") (fun _ => "{}") 599
             "agent" (Apis.mkLLMQuery "llm" None [] (Some []) "chat" "text")
             "http://localhost:8000").
    reflexivity.
Defined.

(** * Further properties of the code *)

(** * Further properties of the code *)

(** ** [parse_result]: what the answer can and cannot be *)

(** X1.  The answer that [parse_result] returns never contains the end
    marker, whatever the reply: looking it up in the answer gives [-1]. *)
Theorem parse_result_has_no_end_marker (text : pystr) :
  PyStr.find (Inference.parse_result text) Inference.END_MARK = -1.
Proof.
  apply find_absent_iff. intros Hocc. exact (parse_result_no_end text Hocc).
Qed.

(** X2.  Extracting from an extracted answer gives the empty string:
    [parse_result] applied twice is constantly empty. *)
Theorem parse_result_twice (text : pystr) :
  Inference.parse_result (Inference.parse_result text) = [].
Proof.
  apply parse_result_missing. right. apply parse_result_no_end.
Qed.

(** X3.  The answer is a contiguous part of the reply, and is therefore no
    longer than the reply. *)
Theorem parse_result_part_of_reply (text : pystr) :
  PyStr.occurs (Inference.parse_result text) text
  /\ (length (Inference.parse_result text) <= length text)%nat.
Proof.
  assert (H : PyStr.occurs (Inference.parse_result text) text).
  { rewrite parse_result_unfold.
    destruct (negb (_ =? -1) && negb (PyStr.find text Inference.END_MARK =? -1)) eqn:E.
    - apply andb_true_iff in E as [_ E]. apply negb_true_iff, Z.eqb_neq in E.
      destruct (slice_part text
                  (PyStr.find text Inference.BEGIN_MARK
                   + Z.of_nat (length Inference.BEGIN_MARK))
                  (PyStr.find text Inference.END_MARK)
                  (find_nonneg_upper _ _ E)) as (a & b & Ht & _).
      exists a, b. exact Ht.
    - exists [], text. reflexivity. }
  split; [exact H|].
  destruct H as (a & b & Ht).
  rewrite Ht at 2. rewrite !length_app. lia.
Qed.

(** X4.  When an end marker stands before every begin marker, the answer
    is empty, even if an enclosed answer follows. *)
Theorem parse_result_end_marker_first (pre post : pystr) :
  ~ PyStr.occurs Inference.BEGIN_MARK pre ->
  Inference.parse_result (pre ++ Inference.END_MARK ++ post) = [].
Proof.
  intros Hpre. rewrite (parse_result_end_first pre post Hpre). reflexivity.
Qed.

(** A reply that closes the tag before opening it. *)
Lemma parse_result_end_marker_first_witness :
  Inference.parse_result
    (str "see " ++ Inference.END_MARK ++ str " <FINAL_ANSWER>x = 1</FINAL_ANSWER>")
  = [].
Proof.
  apply (parse_result_end_marker_first (str "see ")
           (str " <FINAL_ANSWER>x = 1</FINAL_ANSWER>")).
  apply find_absent_iff. reflexivity.
Defined.

(** ** [process_one_func]: failures, the place of the side file, and
    records that share it *)


(** X6.  A call that returns has changed exactly one file, whose name is
    ["program" ++ suffix ++ ".py"] without any ['/'] in it and which lies
    directly in the [programs] directory beside the module, whatever the
    task identifier; standard output is untouched. *)
Theorem process_one_func_side_file_place
    (registry : gmap pystr (bool -> Inference.Agent)) (module_dir : pystr)
    (data : Inference.BenchmarkRecord) (meta_data : Inference.MetaData)
    (w w' : World) (prediction : Inference.ResultRecord) :
  Inference.process_one_func registry module_dir data meta_data w = (ret prediction, w') ->
  exists suffix content,
    (47%N ∉ str "program" ++ suffix ++ str ".py")
    /\ files w'
       = <[OsPath.join module_dir (str "programs")
             ++ str "/" ++ str "program" ++ suffix ++ str ".py"
           := content]> (files w)
    /\ stdout w' = stdout w.
Proof.
  intros Hrun.
  destruct (process_one_func_inv _ _ _ _ _ _ _ Hrun)
    as (make_agent & prompt & test & entry_point & full_id & suffix
        & Hreg & Hprompt & Htest & Hentry & Hid & Hlast & Hopen & Henc).
  rewrite (process_one_func_eval registry module_dir data meta_data w
             make_agent prompt test entry_point full_id suffix) in Hrun by assumption.
  rewrite Hopen, Henc in Hrun.
  apply outcome_inv in Hrun as [_ <-].
  destruct (split_last 47 full_id) as (suffix' & Hlast' & Hfree & _).
  rewrite Hlast' in Hlast. injection Hlast as ->.
  exists suffix. eexists. split; [|split].
  - apply (side_file_name suffix Hfree).
  - cbn [files]. rewrite (side_file_path module_dir suffix). reflexivity.
  - reflexivity.
Qed.

(** Task ["A/1"] of the scenario: the file is [programs/program1.py]. *)
Lemma process_one_func_side_file_place_witness :
  exists suffix content,
    (47%N ∉ str "program" ++ suffix ++ str ".py")
    /\ files
         (mkWorld
            {[ str "/repo/benchmarks/humaneval/programs/program1.py"
               := Scenario.side_text ]}
            {[ str "/repo/benchmarks/humaneval/programs" ]} ∅ UTF8 [])
       = <[OsPath.join Scenario.module_dir (str "programs")
             ++ str "/" ++ str "program" ++ suffix ++ str ".py" := content]>
           (files Scenario.empty_world)
    /\ stdout
         (mkWorld
            {[ str "/repo/benchmarks/humaneval/programs/program1.py"
               := Scenario.side_text ]}
            {[ str "/repo/benchmarks/humaneval/programs" ]} ∅ UTF8 [])
       = stdout Scenario.empty_world.
Proof.
  apply (process_one_func_side_file_place Scenario.registry Scenario.module_dir
           (Scenario.record (str "A/1")) Scenario.meta Scenario.empty_world _
           [(str "task_id", str "A/1"); (str "completion", str "    return x")]).
  vm_compute. reflexivity.
Defined.

(** X7.  Two records whose task identifiers end in the same text after
    the last ['/'] share their side file: once the second is processed,
    nothing is left of the first, as if it had not been processed.  The
    second call ends the same way and leaves the same world from either
    start, unless it stops at a key that the second record lacks, which
    it then does from either start, touching nothing. *)
Theorem process_one_func_same_suffix_overwrites
    (registry : gmap pystr (bool -> Inference.Agent)) (module_dir : pystr)
    (data1 data2 : Inference.BenchmarkRecord) (meta_data : Inference.MetaData)
    (w w1 : World) (prediction1 : Inference.ResultRecord) (pre1 pre2 suffix : pystr) :
  data1 !! str "task_id" = Some (pre1 ++ str "/" ++ suffix) ->
  data2 !! str "task_id" = Some (pre2 ++ str "/" ++ suffix) ->
  47%N ∉ suffix ->
  Inference.process_one_func registry module_dir data1 meta_data w
  = (ret prediction1, w1) ->
  Inference.process_one_func registry module_dir data2 meta_data w1
  = Inference.process_one_func registry module_dir data2 meta_data w
  \/ (exists key,
        data2 !! key = None
        /\ Inference.process_one_func registry module_dir data2 meta_data w1
           = (raise (KeyError key), w1)
        /\ Inference.process_one_func registry module_dir data2 meta_data w
           = (raise (KeyError key), w)).
Proof.
  intros Hid1 Hid2 Hfree Hrun1.
  destruct (process_one_func_inv _ _ _ _ _ _ _ Hrun1)
    as (make_agent & prompt1 & test1 & entry1 & full_id1 & suffix1
        & Hreg & Hprompt1 & Htest1 & Hentry1 & Hid1' & Hlast1 & Hopen & Henc).
  pose proof (eq_trans (eq_sym Hid1') Hid1) as Hsame. apply (inj Some) in Hsame.
  subst full_id1.
  change (pre1 ++ str "/" ++ suffix) with (pre1 ++ 47%N :: suffix) in Hlast1.
  rewrite (split_last_after 47 pre1 suffix Hfree) in Hlast1.
  apply ret_inv in Hlast1 as <-.
  rewrite (process_one_func_eval registry module_dir data1 meta_data w
             make_agent prompt1 test1 entry1 (pre1 ++ str "/" ++ suffix) suffix)
    in Hrun1; try assumption.
  2:{ apply (split_last_after 47 pre1 suffix Hfree). }
  rewrite Hopen, Henc in Hrun1.
  apply outcome_inv in Hrun1 as [_ <-].
  destruct (data2 !! str "prompt") as [prompt2|] eqn:Hprompt2.
  2:{ right. exists (str "prompt"). split; [exact Hprompt2|].
      unfold Inference.process_one_func.
      rewrite (getitem_Some _ _ _ Hreg), !run_lift_ret.
      rewrite (getitem_None _ _ Hprompt2). split; reflexivity. }
  destruct (data2 !! str "test") as [test2|] eqn:Htest2.
  2:{ right. exists (str "test"). split; [exact Htest2|].
      unfold Inference.process_one_func.
      rewrite (getitem_Some _ _ _ Hreg), !run_lift_ret.
      rewrite (getitem_Some _ _ _ Hprompt2), !run_lift_ret.
      rewrite (getitem_None _ _ Htest2). split; reflexivity. }
  destruct (data2 !! str "entry_point") as [entry2|] eqn:Hentry2.
  2:{ right. exists (str "entry_point"). split; [exact Hentry2|].
      unfold Inference.process_one_func.
      rewrite (getitem_Some _ _ _ Hreg), !run_lift_ret.
      rewrite (getitem_Some _ _ _ Hprompt2), !run_lift_ret.
      rewrite (getitem_Some _ _ _ Htest2), !run_lift_ret.
      rewrite (getitem_None _ _ Hentry2). split; reflexivity. }
  left.
  rewrite !(process_one_func_eval registry module_dir data2 meta_data _
              make_agent prompt2 test2 entry2 (pre2 ++ str "/" ++ suffix) suffix);
    try assumption; try apply (split_last_after 47 pre2 suffix Hfree).
  rewrite openable_files, Hopen. cbn [files dirs refused preferred stdout].
  rewrite !insert_insert_eq. reflexivity.
Qed.

(** Tasks ["A/1"] and ["B/1"]: after the first has been processed, the
    second leaves the same files as it does from the start. *)
Lemma process_one_func_same_suffix_overwrites_witness :
  Inference.process_one_func Scenario.registry Scenario.module_dir
    (Scenario.record (str "B/1")) Scenario.meta
    (mkWorld
       {[ str "/repo/benchmarks/humaneval/programs/program1.py" := Scenario.side_text ]}
       {[ str "/repo/benchmarks/humaneval/programs" ]} ∅ UTF8 [])
  = Inference.process_one_func Scenario.registry Scenario.module_dir
      (Scenario.record (str "B/1")) Scenario.meta Scenario.empty_world
  \/ (exists key,
        Scenario.record (str "B/1") !! key = None
        /\ Inference.process_one_func Scenario.registry Scenario.module_dir
             (Scenario.record (str "B/1")) Scenario.meta
             (mkWorld
                {[ str "/repo/benchmarks/humaneval/programs/program1.py"
                   := Scenario.side_text ]}
                {[ str "/repo/benchmarks/humaneval/programs" ]} ∅ UTF8 [])
           = (raise (KeyError key),
              mkWorld
                {[ str "/repo/benchmarks/humaneval/programs/program1.py"
                   := Scenario.side_text ]}
                {[ str "/repo/benchmarks/humaneval/programs" ]} ∅ UTF8 [])
        /\ Inference.process_one_func Scenario.registry Scenario.module_dir
             (Scenario.record (str "B/1")) Scenario.meta Scenario.empty_world
           = (raise (KeyError key), Scenario.empty_world)).
Proof.
  apply (process_one_func_same_suffix_overwrites Scenario.registry Scenario.module_dir
           (Scenario.record (str "A/1")) (Scenario.record (str "B/1")) Scenario.meta
           Scenario.empty_world _
           [(str "task_id", str "A/1"); (str "completion", str "    return x")]
           (str "A") (str "B") (str "1")).
  - reflexivity.
  - reflexivity.
  - compute_done.
  - vm_compute. reflexivity.
Defined.

(** The second record of such a pair, processed after the first: the
    side file holds the text of the second. *)
Example process_one_func_same_suffix_scenario :
  files
    (Inference.process_one_func Scenario.registry Scenario.module_dir
       (<[str "prompt" := str "def g(x):" ++ Inference.NL]>
          (Scenario.record (str "B/1")))
       Scenario.meta
       (Inference.process_one_func Scenario.registry Scenario.module_dir
          (Scenario.record (str "A/1")) Scenario.meta Scenario.empty_world).2).2
  = {[ str "/repo/benchmarks/humaneval/programs/program1.py"
       := str "def g(x):" ++ Inference.NL ++ str "    return x" ++ Inference.NL
          ++ str "assert f(1)==1" ++ Inference.NL ++ str "check(f)" ]}.
Proof. vm_compute. reflexivity. Qed.

(** ** [write_output_func]: what the file and the console hold *)

(** X8.  After a call of [write_output_func] that could open the output
    file, the file holds printable ASCII characters and line feeds only,
    whatever characters the records hold. *)
Theorem write_output_func_ascii_only
    (results : list Inference.ResultRecord) (path : pystr) (w : World) :
  Io.openable w path = true ->
  exists content,
    files (Inference.write_output_func results path w).2 !! path = Some content
    /\ forallb Json.printable_or_lf content = true.
Proof.
  intros Hopen. rewrite write_output_func_eval, Hopen. cbn [snd files].
  eexists. split.
  - apply lookup_insert_eq.
  - apply encoded_lines_chars.
Qed.

(** A record with U+00E9 and U+1F600 in its completion, written to
    [out.jsonl]. *)
Lemma write_output_func_ascii_only_witness :
  exists content,
    files (Inference.write_output_func
             [[(str "task_id", str "A/1"); (str "completion", [233; 128512]%N)]]
             (str "out.jsonl") Scenario.empty_world).2 !! str "out.jsonl"
    = Some content
    /\ forallb Json.printable_or_lf content = true.
Proof.
  apply (write_output_func_ascii_only
           [[(str "task_id", str "A/1"); (str "completion", [233; 128512]%N)]]
           (str "out.jsonl") Scenario.empty_world).
  vm_compute. reflexivity.
Defined.

(** X9.  A call of [write_output_func] that could open the output file
    prints exactly one line, after what was printed before: the number
    of records it was given.  A call that could not prints nothing. *)
Theorem write_output_func_reports_count
    (results : list Inference.ResultRecord) (path : pystr) (w : World) :
  stdout (Inference.write_output_func results path w).2
  = if Io.openable w path
    then stdout w ++ [str "Write results num: " ++ str (pretty (length results))]
    else stdout w.
Proof.
  rewrite write_output_func_eval.
  destruct (Io.openable w path); reflexivity.
Qed.

(** X10.  The record that [process_one_func] returns, written by
    [write_output_func] to a file that can be opened, gives the line
    [{"task_id": ..., "completion": ...}] with the full task identifier
    and the extracted answer as string literals, in this order, and the
    line decodes to these two members, each text with its surrogate
    pairs fused. *)
Theorem process_then_write_line
    (registry : gmap pystr (bool -> Inference.Agent)) (module_dir : pystr)
    (data : Inference.BenchmarkRecord) (meta_data : Inference.MetaData)
    (w w' : World) (prediction : Inference.ResultRecord)
    (make_agent : bool -> Inference.Agent) (prompt full_id out : pystr) :
  registry !! Inference.agent_type meta_data = Some make_agent ->
  data !! str "prompt" = Some prompt ->
  data !! str "task_id" = Some full_id ->
  Inference.process_one_func registry module_dir data meta_data w
  = (ret prediction, w') ->
  Io.openable w' out = true ->
  Json.valid_str full_id = true ->
  Json.valid_str
    (Inference.parse_result
       (Inference.run_humaneval (make_agent (Inference.on_aios meta_data)) prompt))
  = true ->
  files (Inference.write_output_func [prediction] out w').2 !! out
  = Some
      ((str "{" ++ Json.dumps_str (str "task_id") ++ str ": " ++ Json.dumps_str full_id
        ++ str ", " ++ Json.dumps_str (str "completion") ++ str ": "
        ++ Json.dumps_str
             (Inference.parse_result
                (Inference.run_humaneval
                   (make_agent (Inference.on_aios meta_data)) prompt))
        ++ str "}") ++ Inference.NL)
  /\ Json.loads
       (str "{" ++ Json.dumps_str (str "task_id") ++ str ": " ++ Json.dumps_str full_id
        ++ str ", " ++ Json.dumps_str (str "completion") ++ str ": "
        ++ Json.dumps_str
             (Inference.parse_result
                (Inference.run_humaneval
                   (make_agent (Inference.on_aios meta_data)) prompt))
        ++ str "}")
     = Some
         [(str "task_id", Json.fuse full_id);
          (str "completion",
           Json.fuse
             (Inference.parse_result
                (Inference.run_humaneval
                   (make_agent (Inference.on_aios meta_data)) prompt)))].
Proof.
  intros Hreg Hprompt Hid Hrun Hout Hvalid_id Hvalid_answer.
  set (answer :=
         Inference.parse_result
           (Inference.run_humaneval (make_agent (Inference.on_aios meta_data)) prompt))
    in *.
  destruct (process_one_func_inv _ _ _ _ _ _ _ Hrun)
    as (make_agent' & prompt' & test & entry_point & full_id' & suffix
        & Hreg' & Hprompt' & Htest & Hentry & Hid' & Hlast & Hopen & Henc).
  rewrite Hreg in Hreg'. injection Hreg' as <-.
  rewrite Hprompt in Hprompt'. injection Hprompt' as <-.
  rewrite Hid in Hid'. injection Hid' as <-.
  rewrite (process_one_func_eval registry module_dir data meta_data w
             make_agent prompt test entry_point full_id suffix) in Hrun by assumption.
  rewrite Hopen, Henc in Hrun.
  apply outcome_inv in Hrun as [Hrun <-]. apply ret_inv in Hrun as <-.
  assert (Hline :
            Json.dumps [(str "task_id", full_id); (str "completion", answer)]
            = str "{" ++ Json.dumps_str (str "task_id") ++ str ": "
              ++ Json.dumps_str full_id ++ str ", "
              ++ Json.dumps_str (str "completion") ++ str ": "
              ++ Json.dumps_str answer ++ str "}").
  { unfold Json.dumps, Json.dumps_item. cbn [map PyStr.join fst snd].
    rewrite <- !List.app_assoc. reflexivity. }
  split.
  - rewrite write_output_func_eval, Hout. cbn [snd files].
    rewrite lookup_insert_eq. f_equal.
    cbn [map PyStr.join]. fold answer. rewrite Hline. reflexivity.
  - rewrite <- Hline. rewrite loads_dumps.
    + reflexivity.
    + cbn [Json.valid_record forallb fst snd].
      rewrite Hvalid_id, Hvalid_answer. reflexivity.
Qed.

(** The first record of the scenario, written to [out.jsonl]. *)
Lemma process_then_write_line_witness :
  files
    (Inference.write_output_func
       [[(str "task_id", str "A/1"); (str "completion", str "    return x")]]
       (str "out.jsonl")
       (mkWorld
          {[ str "/repo/benchmarks/humaneval/programs/program1.py"
             := Scenario.side_text ]}
          {[ str "/repo/benchmarks/humaneval/programs" ]} ∅ UTF8 [])).2
  !! str "out.jsonl"
  = Some
      ((str "{" ++ Json.dumps_str (str "task_id") ++ str ": "
        ++ Json.dumps_str (str "A/1")
        ++ str ", " ++ Json.dumps_str (str "completion") ++ str ": "
        ++ Json.dumps_str
             (Inference.parse_result
                (Inference.run_humaneval Scenario.stub_agent
                   (str "def f(x):" ++ Inference.NL)))
        ++ str "}") ++ Inference.NL)
  /\ Json.loads
       (str "{" ++ Json.dumps_str (str "task_id") ++ str ": "
        ++ Json.dumps_str (str "A/1")
        ++ str ", " ++ Json.dumps_str (str "completion") ++ str ": "
        ++ Json.dumps_str
             (Inference.parse_result
                (Inference.run_humaneval Scenario.stub_agent
                   (str "def f(x):" ++ Inference.NL)))
        ++ str "}")
     = Some
         [(str "task_id", Json.fuse (str "A/1"));
          (str "completion",
           Json.fuse
             (Inference.parse_result
                (Inference.run_humaneval Scenario.stub_agent
                   (str "def f(x):" ++ Inference.NL))))].
Proof.
  apply (process_then_write_line Scenario.registry Scenario.module_dir
           (Scenario.record (str "A/1")) Scenario.meta Scenario.empty_world _
           [(str "task_id", str "A/1"); (str "completion", str "    return x")]
           (fun _ => Scenario.stub_agent) (str "def f(x):" ++ Inference.NL)
           (str "A/1") (str "out.jsonl")).
  - reflexivity.
  - reflexivity.
  - reflexivity.
  - vm_compute. reflexivity.
  - vm_compute. reflexivity.
  - reflexivity.
  - vm_compute. reflexivity.
Defined.

(** The line of the first record of the scenario, character by
    character. *)
Example process_then_write_line_scenario :
  str "{" ++ Json.dumps_str (str "task_id") ++ str ": " ++ Json.dumps_str (str "A/1")
  ++ str ", " ++ Json.dumps_str (str "completion") ++ str ": "
  ++ Json.dumps_str (str "    return x") ++ str "}"
  = str "{" ++ [34%N] ++ str "task_id" ++ [34%N] ++ str ": "
    ++ [34%N] ++ str "A/1" ++ [34%N] ++ str ", "
    ++ [34%N] ++ str "completion" ++ [34%N] ++ str ": "
    ++ [34%N] ++ str "    return x" ++ [34%N] ++ str "}".
Proof. vm_compute. reflexivity. Qed.

(** ** [LLMQuery] and the three calls *)

(** X11.  For keyword arguments of the declared types, [LLMQuery(...)] is
    constructed exactly when [messages] is given and the action type --
    the given one, ["chat"] when none is given -- is one of the three
    kinds; no other field of such arguments decides. *)
Theorem LLMQuery_new_succeeds_iff (kw : Apis.LLMQuery_kwargs) :
  (exists q, Apis.LLMQuery_new kw = ret q)
  <-> is_Some (Apis.kw_messages kw)
      /\ default "chat" (Apis.kw_action_type kw) ∈ Apis.ACTION_TYPES.
Proof.
  split.
  - intros [q Hq]. apply LLMQuery_new_ok in Hq as (msgs & Hm & Ha & _).
    split; [rewrite Hm; eauto|].
    destruct (Apis.kw_action_type kw) as [a|]; simpl.
    + apply Ha. reflexivity.
    + apply list_elem_of_here.
  - intros [[msgs Hm] Ha]. eexists. apply LLMQuery_new_ok.
    exists msgs. split; [exact Hm|]. split; [|reflexivity].
    intros a Hgiven. rewrite Hgiven in Ha. exact Ha.
Qed.

(** X12.  [llm_chat], [llm_call_tool] and [llm_operate_file] never fail
    on building their query, for any list of messages (the empty one
    included): each hands to [send_request] the agent name, the base URL
    (["http://localhost:8000"] when none is given) and a query with the
    given messages and model list, with action type ["chat"] and no tools
    for [llm_chat], ["tool_use"] resp. ["operate_file"] and the given
    tools for the other two; the result is what [send_request] returns. *)
Theorem llm_calls_send
    (send_request : string -> Apis.LLMQuery -> string -> result Apis.LLMResponse)
    (agent_name : string) (messages tools : list py_dict)
    (base_url : option string) (llms : option (list py_dict)) :
  ApisCalls.llm_chat send_request agent_name messages base_url llms
  = send_request agent_name
      {| Apis.query_class := "llm";
         Apis.llms := llms;
         Apis.messages := messages;
         Apis.tools := None;
         Apis.action_type := "chat";
         Apis.message_return_type := "text" |}
      (default "http://localhost:8000" base_url)
  /\ ApisCalls.llm_call_tool send_request agent_name messages tools base_url llms
     = send_request agent_name
         {| Apis.query_class := "llm";
         Apis.llms := llms;
         Apis.messages := messages;
         Apis.tools := Some tools;
         Apis.action_type := "tool_use";
         Apis.message_return_type := "text" |}
         (default "http://localhost:8000" base_url)
  /\ ApisCalls.llm_operate_file send_request agent_name messages tools base_url llms
     = send_request agent_name
         {| Apis.query_class := "llm";
         Apis.llms := llms;
         Apis.messages := messages;
         Apis.tools := Some tools;
         Apis.action_type := "operate_file";
         Apis.message_return_type := "text" |}
         (default "http://localhost:8000" base_url).
Proof.
  unfold ApisCalls.llm_chat, ApisCalls.llm_call_tool, ApisCalls.llm_operate_file.
  repeat split.
Qed.

(** ** [list_tools] *)

Section ListToolsFacts.

Import ListTools.

Lemma add_rows tools t :
  fold_left
    (fun table tool =>
       add_row [get tool "name" "Unknown";
                get tool "description" "No description available";
                get tool "author" "Unknown";
                get tool "version" "N/A"] table)
    tools t
  = mkTable (title t) (box t) (show_header t) (header_style t) (show_lines t)
      (columns t) (rows t ++ map tool_row tools).
Proof.
  revert t. induction tools as [|tool tools IH]; intros t.
  - simpl. rewrite List.app_nil_r. destruct t; reflexivity.
  - simpl fold_left. rewrite IH. unfold add_row. simpl.
    rewrite <- List.app_assoc. reflexivity.
Qed.

End ListToolsFacts.

(** X13.  With no tool, [list_tools] prints the panel ["No tools found in
    AgentHub"] and nothing else.  With at least one tool it prints a blank
    line, one table, the total and a blank line: the table has the four
    columns Name, Description, Author and Latest Version and one row per
    tool, in the order of the list; a row holds the tool's [name],
    [description], [author] and [version], with ["Unknown"], ["No
    description available"], ["Unknown"] and ["N/A"] for a key the tool
    lacks; the total printed is the number of rows. *)
Theorem list_tools_output (console : list ListTools.Renderable) :
  ListTools.list_tools [] console
  = console ++ [ListTools.Panel "[bold yellow]No tools found in AgentHub" "Tool List"]
  /\ forall tools : list (gmap string string),
      tools <> [] ->
      exists table,
        ListTools.list_tools tools console
        = console
          ++ [ListTools.Plain ListTools.NL;
              ListTools.Tabular table;
              ListTools.Styled
                [(ListTools.NL +:+ "Total tools available: ", "bold");
                 (pretty (length (ListTools.rows table)), "bold green")];
              ListTools.Plain ListTools.NL]
        /\ map ListTools.header (ListTools.columns table)
           = ["Name"; "Description"; "Author"; "Latest Version"]
        /\ ListTools.rows table = map ListTools.tool_row tools
        /\ Forall (fun row => length row = length (ListTools.columns table))
             (ListTools.rows table).
Proof.
  split; [reflexivity|].
  intros tools Hne. destruct tools as [|tool tools]; [done|].
  unfold ListTools.list_tools. rewrite add_rows.
  eexists (ListTools.mkTable _ _ _ _ _ _ (map ListTools.tool_row (tool :: tools))).
  split; [|split; [|split]].
  - rewrite <- !List.app_assoc. cbn [app ListTools.rows].
    rewrite length_map. reflexivity.
  - reflexivity.
  - reflexivity.
  - cbn [ListTools.rows ListTools.columns].
    apply Forall_forall. intros row Hrow.
    apply list_elem_of_In, in_map_iff in Hrow as [t [<- _]]. reflexivity.
Qed.

(** One tool that names only itself: the other cells are the
    fallbacks. *)
Lemma list_tools_output_witness :
  exists table,
    ListTools.list_tools [{[ "name" := "calculator" ]}] []
    = [] ++ [ListTools.Plain ListTools.NL;
             ListTools.Tabular table;
             ListTools.Styled
               [(ListTools.NL +:+ "Total tools available: ", "bold");
                (pretty (length (ListTools.rows table)), "bold green")];
             ListTools.Plain ListTools.NL]
    /\ map ListTools.header (ListTools.columns table)
       = ["Name"; "Description"; "Author"; "Latest Version"]
    /\ ListTools.rows table = map ListTools.tool_row [{[ "name" := "calculator" ]}]
    /\ Forall (fun row => length row = length (ListTools.columns table))
         (ListTools.rows table).
Proof.
  apply (proj2 (list_tools_output []) [{[ "name" := "calculator" ]}]). discriminate.
Defined.

Example list_tools_fallbacks :
  ListTools.tool_row {[ "name" := "calculator" ]}
  = ["calculator"; "No description available"; "Unknown"; "N/A"].
Proof. vm_compute. reflexivity. Qed.
